(** * Contract monitor: a shallow embedding of
      [backend/monitoring/contract_monitor.py]

    The Python class [ContractMonitor] polls a chain RPC endpoint for the
    logs of a registered contract, evaluates every log's transaction against
    three heuristic rules, stores alerts and sends e-mails.  The embedding
    keeps the control flow of the source: exceptions, [break] and [continue]
    are outcomes of a small state monad, the external collaborators (RPC
    endpoint, e-mail transport, address normalisation, database faults) are
    fields of records that the functions receive, and every effect the source
    performs is appended to a trace. *)

From stdpp Require Import gmap strings list fin_maps pretty.

Open Scope string_scope.
Open Scope Z_scope.
Open Scope list_scope.

(** ** Python values, exceptions and results *)

(** The values found in the fields of log entries, transactions and
    receipts. *)
Inductive pyval :=
| VNone
| VInt (z : Z)
| VStr (s : string)
| VBytes (b : list Byte.byte).

Abbreviation dict := (gmap string pyval).

Inductive exn_class :=
| BlockNotFound
| ValueError
| TypeError
| AttributeError
| KeyError
| OtherException.

(** An exception object, of a class below [Exception]: its class and
    [str(e)]. *)
Record exn := Exn { exn_class_of : exn_class; exn_str : string }.

(** What a call into a collaborator gives back. *)
Inductive result (A : Type) :=
| Ok (a : A)
| Raise (e : exn).
Arguments Ok {A} a.
Arguments Raise {A} e.

Definition is_block_not_found (e : exn) : bool :=
  match exn_class_of e with BlockNotFound => true | _ => false end.

Definition type_name (v : pyval) : string :=
  match v with
  | VNone => "NoneType"
  | VInt _ => "int"
  | VStr _ => "str"
  | VBytes _ => "HexBytes"
  end.

(** [d.get(k, default)] *)
Definition dict_get (d : dict) (k : string) (default : pyval) : pyval :=
  match d !! k with Some v => v | None => default end.

(** [d[k]] *)
Definition dict_index (d : dict) (k : string) : result pyval :=
  match d !! k with
  | Some v => Ok v
  | None => Raise (Exn KeyError k)
  end.

(** [o.get(k, default)] on something that is a record or [None]. *)
Definition obj_get (o : option dict) (k : string) (default : pyval) : result pyval :=
  match o with
  | Some d => Ok (dict_get d k default)
  | None => Raise (Exn AttributeError "'NoneType' object has no attribute 'get'")
  end.

(** [o[k]] on something that is a record or [None]. *)
Definition obj_index (o : option dict) (k : string) : result pyval :=
  match o with
  | Some d => dict_index d k
  | None => Raise (Exn TypeError "'NoneType' object is not subscriptable")
  end.

(** Truth value of a record: an empty one is false. *)
Definition dict_truthy (d : dict) : bool := negb (bool_decide (d = ∅)).

(** Truth value of a list. *)
Definition list_truthy {A} (l : list A) : bool :=
  match l with [] => false | _ :: _ => true end.

(** Truth value of a string. *)
Definition str_truthy (s : string) : bool :=
  match s with EmptyString => false | String _ _ => true end.

(** [v > n] for an integer [n]: only integers are ordered against it. *)
Definition py_gt (v : pyval) (n : Z) : result bool :=
  match v with
  | VInt z => Ok (n <? z)
  | _ => Raise (Exn TypeError
           ("'>' not supported between instances of '" +:+ type_name v +:+ "' and 'int'"))
  end.

(** [v == n] for an integer [n]; equality never raises. *)
Definition py_eq_int (v : pyval) (n : Z) : bool :=
  match v with
  | VInt z => z =? n
  | _ => false
  end.

(** [web3.to_wei(n, 'ether')] *)
Definition to_wei_ether (n : Z) : Z := n * 10 ^ 18.

(** ** Records of the data model *)

Record Threat := { type : string; description : string }.

(** A row of the contracts table; its primary key is the key of the table. *)
Record Contract := {
  address : string;
  network : string;
  monitoring_frequency : string;
  status : string;
  threat_level : string
}.

Record Alert := {
  alert_contract_id : Z;
  alert_type : string;
  alert_description : string
}.

Record AlertEmail := { email_contract_id : Z; email : string }.

(** The argument of [web3.eth.get_logs].  The first query of the source has
    no ['topics'] key, the second has [[None]]. *)
Record log_filter := {
  fromBlock : Z;
  toBlock : Z;
  topics : option (list pyval);
  filter_address : string
}.

(** The thread object that [start_monitoring] creates for a contract id. *)
Record Thread := {
  thread_target : Z;
  thread_name : string;
  thread_daemon : bool;
  thread_alive : bool
}.

Inductive level := Info | Warning | Error.

(** Effects, in the order the source performs them.  A log line is kept as
    the text of its f-string with [{}] for each interpolated value, followed
    by those values. *)
Inductive event :=
| EvLog (l : level) (fmt : string) (args : list pyval)
| EvGetLogs (f : log_filter)
| EvSetAttr (cid : Z) (attr value : string)
| EvAdd (a : Alert)
| EvEmail (to subject body : string)
| EvCommit (ok : bool)
| EvSleep (secs : Z)
| EvSpawn (t : Thread).

(** ** The collaborators *)

(** A connected chain client: the answers of the endpoint during one loop
    iteration.  [from_wei] gives the text of [web3.from_wei(v, 'ether')] as
    an f-string renders it. *)
Record Web3 := {
  block_number : result Z;
  get_code : string -> result (list Byte.byte);
  get_balance : string -> result Z;
  get_logs : log_filter -> result (list dict);
  get_transaction : string -> result (option dict);
  get_transaction_receipt : string -> result (option dict);
  from_wei : pyval -> result string
}.

(** Everything else one loop iteration talks to. *)
Record Env := {
  getenv : string -> option string;
  connect : string -> Web3;
  to_checksum_address : string -> result string;
  send_alert_email : string -> string -> string -> result unit;
  db_connect : result unit;
  db_query_emails : result unit;
  db_commit : result unit
}.

(** ** Control flow: a state monad with exceptions, [break] and [continue] *)

Inductive outcome (A : Type) :=
| Ret (a : A)
| Exc (e : exn)
| Brk
| Cont.
Arguments Ret {A} a.
Arguments Exc {A} e.
Arguments Brk {A}.
Arguments Cont {A}.

Definition M (S A : Type) : Type := S -> outcome A * S.

Definition ret {S A} (a : A) : M S A := fun s => (Ret a, s).

Definition bind {S A B} (m : M S A) (k : A -> M S B) : M S B :=
  fun s =>
    match m s with
    | (Ret a, s') => k a s'
    | (Exc e, s') => (Exc e, s')
    | (Brk, s') => (Brk, s')
    | (Cont, s') => (Cont, s')
    end.

Notation "x <-- m ;; k" := (bind m (fun x => k))
  (at level 100, m at next level, right associativity).
Notation "m ;;; k" := (bind m (fun _ => k))
  (at level 100, right associativity).

Definition raise {S A} (e : exn) : M S A := fun s => (Exc e, s).
Definition break_ {S A} : M S A := fun s => (Brk, s).
Definition continue_ {S A} : M S A := fun s => (Cont, s).
Definition gets {S A} (f : S -> A) : M S A := fun s => (Ret (f s), s).
Definition modify {S} (f : S -> S) : M S unit := fun s => (Ret tt, f s).

Definition lift {S A} (r : result A) : M S A :=
  match r with
  | Ok a => ret a
  | Raise e => raise e
  end.

(** [try: body  except Exception as e: handler(e)] *)
Definition try_except {S A} (body : M S A) (handler : exn -> M S A) : M S A :=
  fun s =>
    match body s with
    | (Exc e, s') => handler e s'
    | r => r
    end.

(** [try: body  except C: handler] for one exception class. *)
Definition try_except_if {S A} (catches : exn -> bool)
    (body : M S A) (handler : exn -> M S A) : M S A :=
  fun s =>
    match body s with
    | (Exc e, s') => if catches e then handler e s' else (Exc e, s')
    | r => r
    end.

(** [if c: body] *)
Definition when_ {S} (c : bool) (body : M S unit) : M S unit :=
  if c then body else ret tt.

(** States that carry the trace of effects. *)
Class Traced (S : Type) := add_event : event -> S -> S.

Definition emit {S} `{Traced S} (e : event) : M S unit := modify (add_event e).

Definition log {S} `{Traced S} (l : level) (fmt : string) (args : list pyval) : M S unit :=
  emit (EvLog l fmt args).

(** ** Threat evaluation: [analyze_transaction] *)

(** The local list [threats] of [analyze_transaction] and the trace.  The
    list is mutated in place, so what was appended before an exception is
    still there when the handler has run. *)
Record AState := { threats : list Threat; a_trace : list event }.

#[global] Instance AState_traced : Traced AState :=
  fun e s => {| threats := threats s; a_trace := a_trace s ++ [e] |}.

(** The state in which a call starts: no threat yet, after the lines [tr]. *)
Definition fresh (tr : list event) : AState := {| threats := []; a_trace := tr |}.

Definition set_threats (l : list Threat) : M AState unit :=
  modify (fun s => {| threats := l; a_trace := a_trace s |}).

(** [threats.append(t)] *)
Definition append_threat (t : Threat) : M AState unit :=
  modify (fun s => {| threats := threats s ++ [t]; a_trace := a_trace s |}).

(** Python's [bytes.hex()]: two lowercase digits per byte. *)
Definition hex_digit (n : N) : string :=
  match n with
  | 0 => "0" | 1 => "1" | 2 => "2" | 3 => "3" | 4 => "4" | 5 => "5"
  | 6 => "6" | 7 => "7" | 8 => "8" | 9 => "9" | 10 => "a" | 11 => "b"
  | 12 => "c" | 13 => "d" | 14 => "e" | _ => "f"
  end%N.

Fixpoint bytes_hex (b : list Byte.byte) : string :=
  match b with
  | [] => ""
  | x :: r =>
      let n := Byte.to_N x in
      hex_digit (n / 16) +:+ hex_digit (n mod 16) +:+ bytes_hex r
  end.

Section Evaluation.

(** The text [HexBytes.hex()] gives for a transaction hash; releases of the
    hexbytes package differ on a leading [0x], so it is a parameter. *)
Variable hex : list Byte.byte -> string.

(** [v.hex()]: only a bytes value has the method. *)
Definition py_hex (v : pyval) : result string :=
  match v with
  | VBytes b => Ok (hex b)
  | _ => Raise (Exn AttributeError
           ("'" +:+ type_name v +:+ "' object has no attribute 'hex'"))
  end.

(** The value logged as gas used: [receipt.get('gasUsed', 0) if receipt else
    'unknown']. *)
Definition gas_for_log (receipt : option dict) : pyval :=
  match receipt with
  | Some r => if dict_truthy r then dict_get r "gasUsed" (VInt 0) else VStr "unknown"
  | None => VStr "unknown"
  end.

(** [receipt and receipt.get('status') == 0] *)
Definition receipt_failed (receipt : option dict) : bool :=
  match receipt with
  | Some r => dict_truthy r && py_eq_int (dict_get r "status" VNone) 0
  | None => false
  end.

(** [receipt and receipt.get('gasUsed', 0) > 1000000] *)
Definition receipt_high_gas (receipt : option dict) : result bool :=
  match receipt with
  | Some r =>
      if dict_truthy r then py_gt (dict_get r "gasUsed" (VInt 0)) 1000000 else Ok false
  | None => Ok false
  end.

(** [f'{v}'] where the source interpolates [receipt["gasUsed"]]; only an
    integer gets that far, the comparison before it raises on anything
    else. *)
Definition py_str (v : pyval) : string :=
  match v with
  | VNone => "None"
  | VInt z => pretty z
  | VStr s => s
  | VBytes b => hex b
  end.

(** The body of the [try] of [analyze_transaction]. *)
Definition analyze_body (web3 : Web3) (tx : dict) : M AState unit :=
  tx_hash <-- lift (py_hex (dict_get tx "transactionHash" (VStr ""))) ;;
  when_ (str_truthy tx_hash) (
    log Info "Analyzing transaction: {}" [VStr tx_hash] ;;;
    tx_details <-- lift (get_transaction web3 tx_hash) ;;
    receipt <-- lift (get_transaction_receipt web3 tx_hash) ;;
    (* log transaction details *)
    value <-- lift (obj_get tx_details "value" (VInt 0)) ;;
    eth <-- lift (from_wei web3 value) ;;
    log Info "Transaction value: {} ETH" [VStr eth] ;;;
    log Info "Gas used: {}" [gas_for_log receipt] ;;;
    (* check for high value transfers *)
    value <-- lift (obj_get tx_details "value" (VInt 0)) ;;
    high_value <-- lift (py_gt value (to_wei_ether 10)) ;;
    when_ high_value (
      value <-- lift (obj_index tx_details "value") ;;
      eth <-- lift (from_wei web3 value) ;;
      let threat_msg := "High value transfer: " +:+ eth +:+ " ETH" in
      log Warning threat_msg [] ;;;
      append_threat {| type := "high_value_transfer"; description := threat_msg |}) ;;;
    (* check for failed transactions *)
    when_ (receipt_failed receipt) (
      let threat_msg := "Failed transaction detected: " +:+ tx_hash in
      log Warning threat_msg [] ;;;
      append_threat {| type := "failed_transaction"; description := threat_msg |}) ;;;
    (* check for high gas usage *)
    high_gas <-- lift (receipt_high_gas receipt) ;;
    when_ high_gas (
      gas <-- lift (obj_index receipt "gasUsed") ;;
      let threat_msg := "High gas usage: " +:+ py_str gas +:+ " gas" in
      log Warning threat_msg [] ;;;
      append_threat {| type := "high_gas_usage"; description := threat_msg |}) ;;;
    ts <-- gets threats ;;
    when_ (negb (list_truthy ts)) (log Info "No threats detected in transaction" [])).

Definition analyze_transaction (web3 : Web3) (tx : dict) : M AState (list Threat) :=
  set_threats [] ;;;
  try_except (analyze_body web3 tx)
    (fun e => log Error "Error analyzing transaction: {}" [VStr (exn_str e)]) ;;;
  gets threats.

End Evaluation.

(** ** The monitor's state *)

(** The committed content of the database. *)
Record Database := {
  contracts : gmap Z Contract;
  alerts : list Alert;
  alert_emails : list AlertEmail
}.

(** Modelled from the spec: the scoped session of the persistence
    collaborator ([db_session], given to the constructor and defined outside
    this file), with all-or-nothing commit.  Rows changed in place and rows
    added are pending in the session; a commit writes them all, a failed
    commit or the end of the [with] block drops them. *)
Record Session := {
  dirty : gmap Z Contract;
  added : list Alert
}.

Definition empty_session : Session := {| dirty := ∅; added := [] |}.

(** The fields of a [ContractMonitor], the database and the trace. *)
Record State := {
  db : Database;
  session : Session;
  monitors : gmap Z Thread;
  last_processed_block : gmap Z Z;
  trace : list event
}.

Definition set_db (d : Database) (s : State) : State :=
  {| db := d; session := session s; monitors := monitors s;
     last_processed_block := last_processed_block s; trace := trace s |}.

Definition set_session (x : Session) (s : State) : State :=
  {| db := db s; session := x; monitors := monitors s;
     last_processed_block := last_processed_block s; trace := trace s |}.

Definition set_monitors (m : gmap Z Thread) (s : State) : State :=
  {| db := db s; session := session s; monitors := m;
     last_processed_block := last_processed_block s; trace := trace s |}.

Definition set_last_processed_block (m : gmap Z Z) (s : State) : State :=
  {| db := db s; session := session s; monitors := monitors s;
     last_processed_block := m; trace := trace s |}.

Definition set_trace (t : list event) (s : State) : State :=
  {| db := db s; session := session s; monitors := monitors s;
     last_processed_block := last_processed_block s; trace := t |}.

#[global] Instance State_traced : Traced State :=
  fun e s => set_trace (trace s ++ [e]) s.

(** [ContractMonitor(db_session)]: empty registries. *)
Definition init (d : Database) : State :=
  {| db := d; session := empty_session; monitors := ∅;
     last_processed_block := ∅;
     trace := [EvLog Info "Contract monitor initialized and ready to track contracts" []] |}.

(** What a successful commit writes. *)
Definition apply_session (x : Session) (d : Database) : Database :=
  {| contracts := dirty x ∪ contracts d;
     alerts := alerts d ++ added x;
     alert_emails := alert_emails d |}.

(** [for x in l: body(x)] for a body without [break] or [continue]. *)
Fixpoint for_each {S A} (l : list A) (body : A -> M S unit) : M S unit :=
  match l with
  | [] => ret tt
  | x :: r => body x ;;; for_each r body
  end.

Definition nl : string := String (Ascii.ascii_of_nat 10) "".

(** [sep.join(l)] *)
Fixpoint join (sep : string) (l : list string) : string :=
  match l with
  | [] => ""
  | [x] => x
  | x :: r => x +:+ sep +:+ join sep r
  end.

Definition len {A} (l : list A) : Z := Z.of_nat (length l).

Section Monitor.

Variable hex : list Byte.byte -> string.

(** [os.getenv(key, default)] *)
Definition getenv_default (env : Env) (key default : string) : string :=
  match getenv env key with Some v => v | None => default end.

Definition providers (env : Env) : gmap string string :=
  {[ "ethereum" := getenv_default env "ETH_RPC_URL" "https://eth-mainnet.g.alchemy.com/v2/api-key";
     "base" := getenv_default env "BASE_RPC_URL" "https://mainnet.base.org";
     "base-sepolia" := getenv_default env "BASE_SEPOLIA_RPC_URL" "https://sepolia.base.org" ]}.

Definition get_web3 (env : Env) (network : string) : M State Web3 :=
  match providers env !! network with
  | None => raise (Exn ValueError ("Unsupported network: " +:+ network))
  | Some provider_url =>
      if negb (str_truthy provider_url)
      then raise (Exn ValueError ("No RPC URL configured for network: " +:+ network))
      else
        log Info "Connecting to {} network at {}" [VStr network; VStr provider_url] ;;;
        ret (connect env provider_url)
  end.

(** [web3.eth.get_logs(f)] *)
Definition eth_get_logs (web3 : Web3) (f : log_filter) : M State (list dict) :=
  emit (EvGetLogs f) ;;;
  lift (get_logs web3 f).

Definition get_contract_transactions (web3 : Web3) (contract_address : string)
    (from_block to_block : Z) : M State (list dict) :=
  try_except_if is_block_not_found (
    (* get transactions where contract is recipient *)
    to_contract <-- eth_get_logs web3
      {| fromBlock := from_block; toBlock := to_block; topics := None;
         filter_address := contract_address |} ;;
    (* get transactions where contract is sender *)
    from_contract <-- eth_get_logs web3
      {| fromBlock := from_block; toBlock := to_block; topics := Some [VNone];
         filter_address := contract_address |} ;;
    ret (to_contract ++ from_contract))
  (fun _ =>
    log Warning "Block range {}-{} not available, adjusting range"
      [VInt from_block; VInt to_block] ;;;
    ret []).

(** A call of [self.analyze_transaction] from the loop: the callee's list
    starts empty and the lines it logs are appended to the trace. *)
Definition call_analyze_transaction (web3 : Web3) (tx : dict) : M State (list Threat) :=
  fun s =>
    let '(o, a) := analyze_transaction hex web3 tx (fresh []) in
    (o, set_trace (trace s ++ a_trace a) s).

Definition get_sleep_time (frequency : string) : Z :=
  let frequency_map : gmap string Z :=
    {[ "1min" := 60; "5min" := 300; "15min" := 900; "30min" := 1800; "1hour" := 3600 ]} in
  match frequency_map !! frequency with Some n => n | None => 300 end.

(** [time.sleep(n)] *)
Definition sleep (n : Z) : M State unit := emit (EvSleep n).

(** [session.query(Contract).get(contract_id)] *)
Definition query_contract (env : Env) (contract_id : Z) : M State (option Contract) :=
  lift (db_connect env) ;;;
  gets (fun s => contracts (db s) !! contract_id).

(** [session.query(AlertEmail).filter_by(contract_id=...).all()] *)
Definition query_alert_emails (env : Env) (contract_id : Z) : M State (list AlertEmail) :=
  lift (db_query_emails env) ;;;
  gets (fun s => filter (fun e => email_contract_id e = contract_id) (alert_emails (db s))).

(** [contract.status = v]: the row is changed in the session. *)
Definition assign_status (contract_id : Z) (c : Contract) (v : string) : M State Contract :=
  let c' := {| address := address c; network := network c;
               monitoring_frequency := monitoring_frequency c;
               status := v; threat_level := threat_level c |} in
  emit (EvSetAttr contract_id "status" v) ;;;
  modify (fun s => set_session
    {| dirty := <[contract_id := c']> (dirty (session s)); added := added (session s) |} s) ;;;
  ret c'.

(** [contract.threat_level = v] *)
Definition assign_threat_level (contract_id : Z) (c : Contract) (v : string) : M State Contract :=
  let c' := {| address := address c; network := network c;
               monitoring_frequency := monitoring_frequency c;
               status := status c; threat_level := v |} in
  emit (EvSetAttr contract_id "threat_level" v) ;;;
  modify (fun s => set_session
    {| dirty := <[contract_id := c']> (dirty (session s)); added := added (session s) |} s) ;;;
  ret c'.

(** [session.add(alert)] *)
Definition session_add (a : Alert) : M State unit :=
  emit (EvAdd a) ;;;
  modify (fun s => set_session
    {| dirty := dirty (session s); added := added (session s) ++ [a] |} s).

(** [session.commit()] *)
Definition commit (env : Env) : M State unit :=
  match db_commit env with
  | Ok _ =>
      emit (EvCommit true) ;;;
      modify (fun s => set_session empty_session (set_db (apply_session (session s) (db s)) s))
  | Raise e =>
      emit (EvCommit false) ;;;
      raise e
  end.

(** [with self.db_session() as session: body]: whatever is pending when the
    block is left, by any path, is dropped. *)
Definition with_session {A} (body : M State A) : M State A :=
  fun s =>
    let '(o, s') := body (set_session empty_session s) in
    (o, set_session empty_session s').

Definition notification_message (contract : Contract) (threats : list Threat) : string :=
  "Security threats detected for contract " +:+ address contract +:+ ":" +:+ nl +:+ nl +:+
  join nl (map (fun t => "- " +:+ type t +:+ ": " +:+ description t) threats).

(** The body of the loop over the subscribers, with its own [try]. *)
Definition notify_one (env : Env) (contract : Contract) (threats : list Threat)
    (e : AlertEmail) : M State unit :=
  try_except (
    let message := notification_message contract threats in
    emit (EvEmail (email e) "Contract Security Alert" message) ;;;
    lift (send_alert_email env (email e) "Contract Security Alert" message) ;;;
    log Info "Sent alert email to {}" [VStr (email e)])
  (fun ex =>
    log Error "Failed to send email to {}: {}" [VStr (email e); VStr (exn_str ex)]).

Definition send_notifications (env : Env) (contract_id : Z) (contract : Contract)
    (threats : list Threat) : M State unit :=
  try_except (
    emails <-- query_alert_emails env contract_id ;;
    for_each emails (notify_one env contract threats))
  (fun ex => log Error "Error sending notifications: {}" [VStr (exn_str ex)]).

(** The body of the loop that creates the alerts. *)
Definition create_alert (contract_id : Z) (threat : Threat) : M State unit :=
  session_add {| alert_contract_id := contract_id; alert_type := type threat;
                 alert_description := description threat |} ;;;
  log Warning "Created alert: {} - {}" [VStr (type threat); VStr (description threat)].

(** The loop over [enumerate(transactions, 1)] that fills [all_threats]. *)
Fixpoint analyze_all (web3 : Web3) (total idx : Z) (transactions : list dict)
    (all_threats : list Threat) : M State (list Threat) :=
  match transactions with
  | [] => ret all_threats
  | tx :: rest =>
      log Info "Analyzing transaction {}/{}" [VInt idx; VInt total] ;;;
      threats <-- call_analyze_transaction web3 tx ;;
      if list_truthy threats then
        log Warning "Found {} threats in transaction" [VInt (len threats)] ;;;
        analyze_all web3 total (idx + 1) rest (all_threats ++ threats)
      else
        analyze_all web3 total (idx + 1) rest all_threats
  end.

(** The block under [if all_threats:]. *)
Definition raise_alerts (env : Env) (contract_id : Z) (contract : Contract)
    (all_threats : list Threat) : M State unit :=
  log Warning "Total threats detected: {}" [VInt (len all_threats)] ;;;
  (* Update contract status *)
  let old_status := status contract in
  let old_threat_level := threat_level contract in
  contract <-- assign_status contract_id contract "Warning" ;;
  contract <-- assign_threat_level contract_id contract "Medium" ;;
  log Info "Updated contract status from {} to Warning" [VStr old_status] ;;;
  log Info "Updated threat level from {} to Medium" [VStr old_threat_level] ;;;
  (* Create alerts *)
  for_each all_threats (create_alert contract_id) ;;;
  (* send notifications *)
  send_notifications env contract_id contract all_threats ;;;
  commit env ;;;
  log Info "All alerts and notifications processed" [].

(** The body of the inner [try] of [monitor_contract]. *)
Definition scan_window (env : Env) (contract_id : Z) (contract : Contract) (web3 : Web3)
    (contract_address : string) (from_block current_block : Z) : M State unit :=
  (* check contract code exists *)
  code <-- lift (get_code web3 contract_address) ;;
  when_ (len code =? 0) (
    log Error "No contract code found at address {}" [VStr contract_address] ;;;
    continue_) ;;;
  log Info "Contract code verified at {}" [VStr contract_address] ;;;
  (* get contract balance *)
  balance <-- lift (get_balance web3 contract_address) ;;
  eth <-- lift (from_wei web3 (VInt balance)) ;;
  log Info "Current contract balance: {} ETH" [VStr eth] ;;;
  (* get transactions *)
  log Info "Fetching transactions for contract {}" [VStr contract_address] ;;;
  transactions <-- get_contract_transactions web3 contract_address from_block current_block ;;
  (if list_truthy transactions then
     log Info "Found {} transactions to analyze" [VInt (len transactions)] ;;;
     (* Analyze each transaction *)
     all_threats <-- analyze_all web3 (len transactions) 1 transactions [] ;;
     when_ (list_truthy all_threats) (raise_alerts env contract_id contract all_threats)
   else
     log Info "No new transactions found for contract {}" [VStr contract_address]) ;;;
  (* update last processed block *)
  modify (fun s => set_last_processed_block
    (<[contract_id := current_block]> (last_processed_block s)) s) ;;;
  log Info "Updated last processed block to {}" [VInt current_block].

(** One pass through the body of [while True]. *)
Definition monitor_iteration (env : Env) (contract_id : Z) : M State unit :=
  try_except (
    with_session (
      (* fetch contract details *)
      contract <-- query_contract env contract_id ;;
      match contract with
      | None =>
          log Warning "Contract {} not found in database, stopping monitor" [VInt contract_id] ;;;
          break_
      | Some contract =>
          log Info "Monitoring contract {} on {}"
            [VStr (address contract); VStr (network contract)] ;;;
          (* initialize web3 connection *)
          web3 <-- get_web3 env (network contract) ;;
          contract_address <-- lift (to_checksum_address env (address contract)) ;;
          (* get block range to check *)
          current_block <-- lift (block_number web3) ;;
          from_block <-- gets (fun s =>
            match last_processed_block s !! contract_id with
            | Some b => b
            | None => current_block - 100
            end) ;;
          log Info "Scanning blocks {} to {} for contract activity"
            [VInt from_block; VInt current_block] ;;;
          try_except
            (scan_window env contract_id contract web3 contract_address
               from_block current_block)
            (fun e => log Error "Error processing contract: {}" [VStr (exn_str e)]) ;;;
          (* calculate next check time *)
          let sleep_time := get_sleep_time (monitoring_frequency contract) in
          log Info "Next check in {} seconds (monitoring frequency: {})"
            [VInt sleep_time; VStr (monitoring_frequency contract)] ;;;
          sleep sleep_time
      end))
    (fun e =>
      log Error "Critical error in monitoring loop: {}" [VStr (exn_str e)] ;;;
      sleep 60).

(** The [while True] loop, run for as many iterations as there are
    environments; [true] when the loop was left by [break]. *)
Fixpoint while_true (envs : list Env) (contract_id : Z) : M State bool :=
  match envs with
  | [] => ret false
  | env :: rest =>
      fun s =>
        match monitor_iteration env contract_id s with
        | (Brk, s') => (Ret true, s')
        | (Exc e, s') => (Exc e, s')
        | (_, s') => while_true rest contract_id s'
        end
  end.

Definition monitor_contract (envs : list Env) (contract_id : Z) : M State bool :=
  log Info "Starting monitoring service for contract ID: {}" [VInt contract_id] ;;;
  while_true envs contract_id.

(** [thread.start()] is taken to succeed; the registry holds the thread
    object, whose liveness the function never looks at. *)
Definition start_monitoring (contract_id : Z) : M State unit :=
  ms <-- gets monitors ;;
  match ms !! contract_id with
  | None =>
      log Info "Starting new monitor thread for contract {}" [VInt contract_id] ;;;
      let thread := {| thread_target := contract_id;
                       thread_name := "contract-monitor-" +:+ pretty contract_id;
                       thread_daemon := true;
                       thread_alive := true |} in
      emit (EvSpawn thread) ;;;
      modify (fun s => set_monitors (<[contract_id := thread]> (monitors s)) s) ;;;
      log Info "Monitor thread started for contract {}" [VInt contract_id]
  | Some _ =>
      log Warning "Monitor already exists for contract {}" [VInt contract_id]
  end.

End Monitor.

(** * Vocabulary of the proofs *)

(** ** Running a computation to a postcondition *)

Definition wp {S A} (m : M S A) (s : S) (Q : outcome A -> S -> Prop) : Prop :=
  Q (m s).1 (m s).2.

(** How an outcome that is not a value passes through a bind. *)
Definition passes {S A B} (Q : outcome B -> S -> Prop) (k : A -> S -> Prop)
    (o : outcome A) (s : S) : Prop :=
  match o with
  | Ret a => k a s
  | Exc e => Q (Exc e) s
  | Brk => Q Brk s
  | Cont => Q Cont s
  end.

(** ** Classes of events *)

Definition is_log (e : event) : bool :=
  match e with EvLog _ _ _ => true | _ => false end.

Definition is_error_log (e : event) : bool :=
  match e with EvLog Error _ _ => true | _ => false end.

Definition is_get_logs (e : event) : bool :=
  match e with EvGetLogs _ => true | _ => false end.

Definition is_set_attr (e : event) : bool :=
  match e with EvSetAttr _ _ _ => true | _ => false end.

Definition is_add (e : event) : bool :=
  match e with EvAdd _ => true | _ => false end.

Definition is_email (e : event) : bool :=
  match e with EvEmail _ _ _ => true | _ => false end.

Definition is_commit (e : event) : bool :=
  match e with EvCommit _ => true | _ => false end.

Definition is_sleep (e : event) : bool :=
  match e with EvSleep _ => true | _ => false end.

Definition is_spawn (e : event) : bool :=
  match e with EvSpawn _ => true | _ => false end.

Definition is_log_or_email (e : event) : bool := is_log e || is_email e.

(** A change of a row, a new row or a commit. *)
Definition is_write (e : event) : bool := is_set_attr e || is_add e || is_commit e.

(** A log line or a log query for the window [from_block .. to_block]. *)
Definition is_log_or_query (from_block to_block : Z) (e : event) : bool :=
  match e with
  | EvLog _ _ _ => true
  | EvGetLogs f => (fromBlock f =? from_block) && (toBlock f =? to_block)
  | _ => false
  end.

(** ** Threats found in a window *)

(** What one call of [analyze_transaction] returns and logs. *)
Definition threats_of (hex : list Byte.byte -> string) (web3 : Web3) (tx : dict) : list Threat :=
  match (analyze_transaction hex web3 tx (fresh [])).1 with
  | Ret ts => ts
  | _ => []
  end.

Definition lines_of (hex : list Byte.byte -> string) (web3 : Web3) (tx : dict) : list event :=
  a_trace (analyze_transaction hex web3 tx (fresh [])).2.

(** The threats returned across all transactions of a window. *)
Definition found_threats (hex : list Byte.byte -> string) (web3 : Web3)
    (transactions : list dict) : list Threat :=
  concat (map (threats_of hex web3) transactions).

(** The alert row made from a threat. *)
Definition alert_of (contract_id : Z) (t : Threat) : Alert :=
  {| alert_contract_id := contract_id; alert_type := type t;
     alert_description := description t |}.

(** The contract row after [status] and [threat_level] were assigned. *)
Definition warned (c : Contract) : Contract :=
  {| address := address c; network := network c;
     monitoring_frequency := monitoring_frequency c;
     status := "Warning"; threat_level := "Medium" |}.

(** The two filters of a window. *)
Definition recipient_filter (contract_address : string) (from_block to_block : Z) : log_filter :=
  {| fromBlock := from_block; toBlock := to_block; topics := None;
     filter_address := contract_address |}.

Definition sender_filter (contract_address : string) (from_block to_block : Z) : log_filter :=
  {| fromBlock := from_block; toBlock := to_block; topics := Some [VNone];
     filter_address := contract_address |}.

(** The subscribers of a contract. *)
Definition subscribers (d : Database) (contract_id : Z) : list AlertEmail :=
  filter (fun e => email_contract_id e = contract_id) (alert_emails d).

(** The call of the transport made for one subscriber. *)
Definition email_event (c : Contract) (ts : list Threat) (e : AlertEmail) : event :=
  EvEmail (email e) "Contract Security Alert" (notification_message c ts).

(** The events of the alerting block up to the call of the dispatcher. *)
Definition staging_events (contract_id : Z) (c : Contract) (ts : list Threat) : list event :=
  [EvLog Warning "Total threats detected: {}" [VInt (len ts)];
   EvSetAttr contract_id "status" "Warning";
   EvSetAttr contract_id "threat_level" "Medium";
   EvLog Info "Updated contract status from {} to Warning" [VStr (status c)];
   EvLog Info "Updated threat level from {} to Medium" [VStr (threat_level c)]] ++
  flat_map (fun t =>
    [EvAdd (alert_of contract_id t);
     EvLog Warning "Created alert: {} - {}" [VStr (type t); VStr (description t)]]) ts.

(** The session in which the dispatcher is called: the changed row and the
    new alert rows are pending. *)
Definition staged_session (contract_id : Z) (c : Contract) (ts : list Threat)
    (x : Session) : Session :=
  {| dirty := <[contract_id := warned c]> (dirty x);
     added := added x ++ map (alert_of contract_id) ts |}.

(** The state in which the dispatcher is called. *)
Definition staged (contract_id : Z) (c : Contract) (ts : list Threat) (s : State) : State :=
  set_trace (trace s ++ staging_events contract_id c ts)
    (set_session (staged_session contract_id c ts (session s)) s).

(** The state after the alerting block when the commit succeeded; [evs] are
    the events of the dispatcher. *)
Definition committed (contract_id : Z) (c : Contract) (ts : list Threat)
    (evs : list event) (s : State) : State :=
  set_trace
    (trace s ++ staging_events contract_id c ts ++ evs ++
       [EvCommit true; EvLog Info "All alerts and notifications processed" []])
    (set_session empty_session
       (set_db (apply_session (staged_session contract_id c ts (session s)) (db s)) s)).

(** The state in which the alerting block raises when the commit failed. *)
Definition commit_failed (contract_id : Z) (c : Contract) (ts : list Threat)
    (evs : list event) (s : State) : State :=
  set_trace (trace s ++ staging_events contract_id c ts ++ evs ++ [EvCommit false])
    (set_session (staged_session contract_id c ts (session s)) s).

(** ** Conditions on the answers of the collaborators *)

(** The lower end of the window: the stored cursor, or 100 blocks back. *)
Definition window_start (s : State) (contract_id current_block : Z) : Z :=
  match last_processed_block s !! contract_id with
  | Some b => b
  | None => current_block - 100
  end.

(** The iteration gets as far as the inner [try]: the contract row [c] is
    found, its network has the endpoint [url], its address normalises to
    [addr] and the endpoint reports the height [cur]. *)
Definition reaches_scan (env : Env) (s : State) (contract_id : Z) (c : Contract)
    (url addr : string) (cur : Z) : Prop :=
  db_connect env = Ok tt /\
  contracts (db s) !! contract_id = Some c /\
  providers env !! network c = Some url /\
  str_truthy url = true /\
  to_checksum_address env (address c) = Ok addr /\
  block_number (connect env url) = Ok cur.

(** The scan gets as far as the log queries: there is code at the address
    and the balance can be read and rendered. *)
Definition reaches_fetch (web3 : Web3) (addr : string) : Prop :=
  exists code balance eth,
    get_code web3 addr = Ok code /\ (len code =? 0) = false /\
    get_balance web3 addr = Ok balance /\
    from_wei web3 (VInt balance) = Ok eth.

(** One of the two log queries of the window fails with [BlockNotFound]. *)
Definition range_unavailable (web3 : Web3) (addr : string) (from_block to_block : Z) : Prop :=
  (exists e, get_logs web3 (recipient_filter addr from_block to_block) = Raise e /\
             is_block_not_found e = true) \/
  (exists l e, get_logs web3 (recipient_filter addr from_block to_block) = Ok l /\
               get_logs web3 (sender_filter addr from_block to_block) = Raise e /\
               is_block_not_found e = true).

(** The window yields the transactions [txs]. *)
Definition window_yields (web3 : Web3) (addr : string) (from_block to_block : Z)
    (txs : list dict) : Prop :=
  (exists l1 l2, get_logs web3 (recipient_filter addr from_block to_block) = Ok l1 /\
                 get_logs web3 (sender_filter addr from_block to_block) = Ok l2 /\
                 txs = l1 ++ l2) \/
  (range_unavailable web3 addr from_block to_block /\ txs = []).

(** In the events [tr], every call of the e-mail transport comes after a
    successful commit; [committed] tells whether one came before [tr]. *)
Fixpoint mailed_after_commit (committed : bool) (tr : list event) : bool :=
  match tr with
  | [] => true
  | EvCommit true :: rest => mailed_after_commit true rest
  | EvEmail _ _ _ :: rest => committed && mailed_after_commit committed rest
  | _ :: rest => mailed_after_commit committed rest
  end.

(** A log query, if [e] is one, asks for the window [from_block .. to_block]. *)
Definition in_window (from_block to_block : Z) (e : event) : bool :=
  match e with
  | EvGetLogs f => (fromBlock f =? from_block) && (toBlock f =? to_block)
  | _ => true
  end.

(** What one iteration does to the cursor and which windows it queries:
    either the cursor is untouched and no log query is made, or the endpoint
    of the contract's network reported a height [cur], the cursor is
    untouched or set to [cur], and every log query is for the window from
    the old cursor (or [cur - 100]) to [cur]. *)
Definition iteration_effect (env : Env) (contract_id : Z) (s s' : State) : Prop :=
  exists evs, trace s' = trace s ++ evs /\
    ((last_processed_block s' = last_processed_block s /\
      List.filter is_get_logs evs = []) \/
     (exists c url cur,
        contracts (db s) !! contract_id = Some c /\
        providers env !! network c = Some url /\
        block_number (connect env url) = Ok cur /\
        (last_processed_block s' = last_processed_block s \/
         last_processed_block s' = <[contract_id := cur]> (last_processed_block s)) /\
        forallb (in_window (window_start s contract_id cur) cur) evs = true)).

(** From [s] to [s'] the database is the same and nothing was assigned,
    added or committed. *)
Definition writes_nothing (s s' : State) : Prop :=
  db s' = db s /\
  exists evs, trace s' = trace s ++ evs /\ List.filter is_write evs = [].




(** The thread that [start_monitoring] creates for a contract id. *)
Definition monitor_thread (contract_id : Z) : Thread :=
  {| thread_target := contract_id;
     thread_name := "contract-monitor-" +:+ pretty contract_id;
     thread_daemon := true;
     thread_alive := true |}.

(** ** Sample collaborators for the examples *)

Module Sample.

(** A log entry with a two-byte transaction hash. *)
Definition tx1 : dict := {[ "transactionHash" := VBytes [Byte.xab; Byte.x01] ]}.

(** Transaction details: a transfer of 15 ether, and one of no value. *)
Definition details_15_eth : dict := {[ "value" := VInt (15 * 10 ^ 18) ]}.
Definition details_no_value : dict := {[ "value" := VInt 0 ]}.

(** Receipts. *)
Definition receipt_fine : dict := {[ "status" := VInt 1; "gasUsed" := VInt 50000 ]}.
Definition receipt_gas (g : Z) : dict := {[ "status" := VInt 1; "gasUsed" := VInt g ]}.
Definition receipt_failed_bad_gas : dict :=
  {[ "status" := VInt 0; "gasUsed" := VStr "n/a" ]}.

(** Amounts in whole ethers; anything but a non-negative integer is refused. *)
Definition whole_ether (v : pyval) : result string :=
  match v with
  | VInt z =>
      if 0 <=? z then Ok (pretty (z / 10 ^ 18))
      else Raise (Exn ValueError "value must be between 1 and 2**256 - 1")
  | _ => Raise (Exn TypeError "unsupported type")
  end.

(** Both log queries succeed: the first returns [txs], the second nothing. *)
Definition logs_found (txs : list dict) (f : log_filter) : result (list dict) :=
  match topics f with None => Ok txs | Some _ => Ok [] end.

(** The first query succeeds, the second is rejected as unavailable. *)
Definition logs_unavailable (txs : list dict) (f : log_filter) : result (list dict) :=
  match topics f with
  | None => Ok txs
  | Some _ => Raise (Exn BlockNotFound "block not found")
  end.

Definition client (height : Z) (code : list Byte.byte)
    (logs : log_filter -> result (list dict)) (details receipt : option dict) : Web3 :=
  {| block_number := Ok height;
     get_code := fun _ => Ok code;
     get_balance := fun _ => Ok 0;
     get_logs := logs;
     get_transaction := fun _ => Ok details;
     get_transaction_receipt := fun _ => Ok receipt;
     from_wei := whole_ether |}.

Definition environment (w : Web3) (commit_answer : result unit) : Env :=
  {| getenv := fun _ => None;
     connect := fun _ => w;
     to_checksum_address := fun a => Ok a;
     send_alert_email := fun _ _ _ => Ok tt;
     db_connect := Ok tt;
     db_query_emails := Ok tt;
     db_commit := commit_answer |}.

Definition c0 : Contract :=
  {| address := "0xAbC"; network := "base"; monitoring_frequency := "5min";
     status := "Normal"; threat_level := "Low" |}.

Definition db0 : Database :=
  {| contracts := {[ 1 := c0 ]};
     alerts := [];
     alert_emails := [ {| email_contract_id := 1; email := "ops@example.org" |} ] |}.

Definition bytecode : list Byte.byte := [Byte.x60; Byte.x80].

(** One transaction of 15 ether with a fine receipt, at height [h]. *)
Definition w_transfer (h : Z) : Web3 :=
  client h bytecode (logs_found [tx1]) (Some details_15_eth) (Some receipt_fine).

(** One transaction that trips no rule. *)
Definition w_quiet : Web3 :=
  client 1000 bytecode (logs_found [tx1]) (Some details_no_value) (Some receipt_fine).

(** One transaction with the given gas used. *)
Definition w_gas (g : Z) : Web3 :=
  client 1000 bytecode (logs_found [tx1]) (Some details_no_value) (Some (receipt_gas g)).

(** A transfer of 15 ether that failed, with a malformed [gasUsed]. *)
Definition w_malformed : Web3 :=
  client 1000 bytecode (logs_found [tx1]) (Some details_15_eth) (Some receipt_failed_bad_gas).

(** A transfer of 15 ether without a receipt. *)
Definition w_no_receipt : Web3 :=
  client 1000 bytecode (logs_found [tx1]) (Some details_15_eth) None.

(** The endpoint has the receipt, with 2,000,000 gas used, but not the
    transaction details. *)
Definition w_no_details : Web3 :=
  client 1000 bytecode (logs_found [tx1]) None (Some (receipt_gas 2000000)).

(** The window is rejected by the second query. *)
Definition w_unavailable : Web3 :=
  client 1000 bytecode (logs_unavailable [tx1]) (Some details_15_eth) (Some receipt_fine).

(** No code at the address. *)
Definition w_no_code : Web3 :=
  client 1000 [] (logs_found [tx1]) (Some details_15_eth) (Some receipt_fine).

(** No activity in the window; the endpoint reports the height [h]. *)
Definition w_idle (h : Z) : Web3 := client h bytecode (logs_found []) None None.

Definition the_threat : Threat :=
  {| type := "high_value_transfer"; description := "High value transfer: 15 ETH" |}.

Definition commit_error : exn := Exn OtherException "database is locked".

End Sample.

(** The endpoint the samples resolve: the default of the Base network. *)
Definition sample_url : string := "https://mainnet.base.org".


(** ** Vocabulary of the further properties *)

(** The three threats the rules can report. *)
Definition value_threat (eth : string) : Threat :=
  {| type := "high_value_transfer";
     description := "High value transfer: " +:+ eth +:+ " ETH" |}.

Definition failed_threat (tx_hash : string) : Threat :=
  {| type := "failed_transaction";
     description := "Failed transaction detected: " +:+ tx_hash |}.

Definition gas_threat (gas : Z) : Threat :=
  {| type := "high_gas_usage";
     description := "High gas usage: " +:+ pretty gas +:+ " gas" |}.

(** The order in which the rules are applied. *)
Definition rule_order : list string :=
  ["high_value_transfer"; "failed_transaction"; "high_gas_usage"].

(** ** More sample collaborators *)

Module More.

(** A failed transfer of 15 ether that used 1,500,000 gas. *)
Definition receipt_failed_heavy : dict :=
  {[ "status" := VInt 0; "gasUsed" := VInt 1500000 ]}.

Definition w_all_rules : Web3 :=
  Sample.client 1000 Sample.bytecode (Sample.logs_found [Sample.tx1])
    (Some Sample.details_15_eth) (Some receipt_failed_heavy).

(** A log entry without a transaction hash, and one whose hash is text. *)
Definition tx_no_hash : dict := {[ "blockNumber" := VInt 990 ]}.
Definition tx_text_hash : dict := {[ "transactionHash" := VStr "0xab01" ]}.

(** Every log query fails with a connection error. *)
Definition connection_reset : exn := Exn OtherException "connection reset".

Definition w_logs_fail : Web3 :=
  Sample.client 1000 Sample.bytecode (fun _ => Raise connection_reset) None None.

(** Both log queries return the same entry, a transfer of 15 ether. *)
Definition w_both_queries : Web3 :=
  Sample.client 1000 Sample.bytecode (fun _ => Ok [Sample.tx1])
    (Some Sample.details_15_eth) (Some Sample.receipt_fine).

(** A contract on a network the monitor does not know. *)
Definition c_unknown_network : Contract :=
  {| address := "0xAbC"; network := "solana"; monitoring_frequency := "1min";
     status := "Normal"; threat_level := "Low" |}.

Definition db_unknown_network : Database :=
  {| contracts := {[ 1 := c_unknown_network ]}; alerts := []; alert_emails := [] |}.

(** Three subscribers, one of them of another contract; the transport
    refuses the first address. *)
Definition db_three_subscribers : Database :=
  {| contracts := {[ 1 := Sample.c0 ]};
     alerts := [];
     alert_emails :=
       [ {| email_contract_id := 1; email := "bad@example.org" |};
         {| email_contract_id := 2; email := "other@example.org" |};
         {| email_contract_id := 1; email := "ops@example.org" |} ] |}.

Definition refusing_transport (to subject body : string) : result unit :=
  if String.eqb to "bad@example.org"
  then Raise (Exn OtherException "recipient refused")
  else Ok tt.

Definition env_refusing : Env :=
  {| getenv := fun _ => None;
     connect := fun _ => Sample.w_transfer 1000;
     to_checksum_address := fun a => Ok a;
     send_alert_email := refusing_transport;
     db_connect := Ok tt;
     db_query_emails := Ok tt;
     db_commit := Ok tt |}.

End More.

(** ** What every iteration keeps *)

(** What every iteration keeps and does, whatever the collaborators answer:
    no session is left open and the registry is untouched; the database is
    as before or, after a successful commit on a found contract, holds what
    the alerting block staged; the iteration ends by [break] only when the
    contract row is absent and by [continue] only when the endpoint of the
    row's network reports no code at the row's normalised address; it
    sleeps once when it ends normally, for 60 seconds or
    for the contract's frequency, and not at all otherwise. *)
Definition iteration_frame (env : Env) (contract_id : Z) (s : State)
    (o : outcome unit) (s' : State) : Prop :=
  session s' = empty_session /\
  monitors s' = monitors s /\
  (db s' = db s \/
   exists c ts,
     contracts (db s) !! contract_id = Some c /\ ts <> [] /\ db_commit env = Ok tt /\
     db s' = apply_session (staged_session contract_id c ts empty_session) (db s)) /\
  (o = Brk -> contracts (db s) !! contract_id = None) /\
  (o = Cont ->
   exists c url addr code,
     contracts (db s) !! contract_id = Some c /\
     providers env !! network c = Some url /\
     to_checksum_address env (address c) = Ok addr /\
     get_code (connect env url) addr = Ok code /\ (len code =? 0) = true) /\
  exists evs, trace s' = trace s ++ evs /\
    match o with
    | Ret _ =>
        List.filter is_sleep evs = [EvSleep 60] \/
        exists c, contracts (db s) !! contract_id = Some c /\
          List.filter is_sleep evs = [EvSleep (get_sleep_time (monitoring_frequency c))]
    | _ => List.filter is_sleep evs = []
    end.

(** ** Failures of an iteration *)

(** Anything but a log line: a query, a write, a mail, a sleep, a thread. *)
Definition is_effect (e : event) : bool := negb (is_log e).

(** The iteration fails with [e] before the inner [try] is entered: the
    database cannot be reached, the network of the row is unknown or has an
    empty endpoint, the address cannot be normalised, or the height cannot
    be read. *)
Definition fails_before_scan (env : Env) (s : State) (contract_id : Z) (e : exn) : Prop :=
  db_connect env = Raise e \/
  (db_connect env = Ok tt /\
   exists c, contracts (db s) !! contract_id = Some c /\
     ((providers env !! network c = None /\
       e = Exn ValueError ("Unsupported network: " +:+ network c)) \/
      (exists url, providers env !! network c = Some url /\ str_truthy url = false /\
         e = Exn ValueError ("No RPC URL configured for network: " +:+ network c)) \/
      (exists url, providers env !! network c = Some url /\ str_truthy url = true /\
         (to_checksum_address env (address c) = Raise e \/
          exists addr, to_checksum_address env (address c) = Ok addr /\
            block_number (connect env url) = Raise e)))).

(** The scan of a window fails with [e] before anything is analysed: the
    code, the balance or its rendering cannot be had, or a log query fails
    with an error other than [BlockNotFound]. *)
Definition scan_fails (web3 : Web3) (addr : string) (from_block to_block : Z) (e : exn) : Prop :=
  get_code web3 addr = Raise e \/
  (exists code, get_code web3 addr = Ok code /\ (len code =? 0) = false /\
     (get_balance web3 addr = Raise e \/
      exists balance, get_balance web3 addr = Ok balance /\
        (from_wei web3 (VInt balance) = Raise e \/
         exists eth, from_wei web3 (VInt balance) = Ok eth /\
           is_block_not_found e = false /\
           (get_logs web3 (recipient_filter addr from_block to_block) = Raise e \/
            exists l, get_logs web3 (recipient_filter addr from_block to_block) = Ok l /\
              get_logs web3 (sender_filter addr from_block to_block) = Raise e)))).

(** ** The dispatcher and the registry *)

(** What the dispatcher does for one subscriber: the call of the transport
    and the line that reports how it went. *)
Definition delivery_events (env : Env) (c : Contract) (ts : list Threat)
    (e : AlertEmail) : list event :=
  [email_event c ts e;
   match send_alert_email env (email e) "Contract Security Alert"
           (notification_message c ts) with
   | Ok _ => EvLog Info "Sent alert email to {}" [VStr (email e)]
   | Raise ex =>
       EvLog Error "Failed to send email to {}: {}" [VStr (email e); VStr (exn_str ex)]
   end].

(** [for contract_id in ids: self.start_monitoring(contract_id)] *)
Definition start_all (ids : list Z) : M State unit := for_each ids start_monitoring.

(** The number of threads started so far. *)
Definition threads_started (s : State) : nat := length (List.filter is_spawn (trace s)).

(** * Lemmas *)

(** ** Rules of the monad *)

Section Rules.
Context {S A B : Type}.
Implicit Types (s : S).

Lemma wp_bind (m : M S A) (k : A -> M S B) s Q :
  wp m s (passes Q (fun a s' => wp (k a) s' Q)) -> wp (bind m k) s Q.
Proof. unfold wp, bind, passes. destruct (m s) as [[]]; auto. Qed.
Lemma wp_ret (a : A) s (Q : outcome A -> S -> Prop) : Q (Ret a) s -> wp (ret a) s Q.
Proof. auto. Qed.
Lemma wp_raise (e : exn) s (Q : outcome A -> S -> Prop) : Q (Exc e) s -> wp (raise e) s Q.
Proof. auto. Qed.
Lemma wp_lift (r : result A) s (Q : outcome A -> S -> Prop) :
  match r with Ok a => Q (Ret a) s | Raise e => Q (Exc e) s end -> wp (lift r) s Q.
Proof. destruct r; auto. Qed.
Lemma wp_gets (f : S -> A) s (Q : outcome A -> S -> Prop) : Q (Ret (f s)) s -> wp (gets f) s Q.
Proof. auto. Qed.
Lemma wp_try_except (body : M S A) handler s (Q : outcome A -> S -> Prop) :
  wp body s (fun o s' => match o with Exc e => wp (handler e) s' Q | _ => Q o s' end) ->
  wp (try_except body handler) s Q.
Proof. unfold wp, try_except. destruct (body s) as [[]]; auto. Qed.
End Rules.
Lemma wp_modify {S} (f : S -> S) s (Q : outcome unit -> S -> Prop) :
  Q (Ret tt) (f s) -> wp (modify f) s Q.
Proof. auto. Qed.
Lemma wp_when {S} (b : bool) (body : M S unit) s (Q : outcome unit -> S -> Prop) :
  (if b then wp body s Q else Q (Ret tt) s) -> wp (when_ b body) s Q.
Proof. destruct b; auto. Qed.

(** One step of symbolic execution.  An answer that a hypothesis fixes is
    used; any other answer is split into its cases. *)
Ltac is_value x :=
  lazymatch x with
  | Ok _ => idtac
  | Raise _ => idtac
  | Some _ => idtac
  | None => idtac
  | true => idtac
  | false => idtac
  end.

Ltac state_proj x :=
  let x' := eval cbn [db session monitors last_processed_block trace set_db set_session
                      set_monitors set_last_processed_block set_trace add_event
                      State_traced] in x in
  first [ constr_eq x x'; fail 1 | change x with x' ].

Ltac known x :=
  match goal with
  | H : ?y = _ |- _ => lazymatch x with context [y] => rewrite H end
  end; cbn [negb andb orb].

Ltac evaluates x :=
  let v := eval cbv [len length Z.of_nat Z.eqb negb andb orb list_truthy str_truthy app] in x in
  is_value v; change x with v.

Ltac scrutinee x :=
  first [ is_value x; cbv beta iota | state_proj x | known x | evaluates x
        | destruct x eqn:? ].

Ltac wp_prim :=
  lazymatch goal with
  | |- wp (bind _ _) _ _ => apply wp_bind
  | |- wp (ret _) _ _ => apply wp_ret
  | |- wp (raise _) _ _ => apply wp_raise
  | |- wp (lift _) _ _ => apply wp_lift
  | |- wp (gets _) _ _ => apply wp_gets
  | |- wp (modify _) _ _ => apply wp_modify
  | |- wp (log _ _ _) _ _ => apply wp_modify
  | |- wp (emit _) _ _ => apply wp_modify
  | |- wp (append_threat _) _ _ => apply wp_modify
  | |- wp (set_threats _) _ _ => apply wp_modify
  | |- wp (when_ _ _) _ _ => apply wp_when
  | |- wp (try_except _ _) _ _ => apply wp_try_except
  | |- wp (match ?x with _ => _ end) _ _ => scrutinee x
  | |- passes _ _ _ _ => unfold passes at 1
  | |- match ?x with _ => _ end =>
      lazymatch type of x with
      | result ?T => scrutinee x
      | option ?T => scrutinee x
      | bool => scrutinee x
      end
  end.

(** ** Threat evaluation *)

Ltac asimpl := cbn [threats a_trace add_event AState_traced fresh] in *.

(** Two answers of the same call are the same answer. *)
Ltac same_answer :=
  simplify_eq;
  repeat match goal with
  | H1 : ?x = Ok _, H2 : ?x = _ |- _ => rewrite H1 in H2; simplify_eq
  end.

Ltac in_threats :=
  repeat match goal with
  | H : _ ∈ _ ++ _ |- _ => apply elem_of_app in H; destruct H
  | H : _ ∈ [_] |- _ => apply list_elem_of_singleton in H; subst
  | H : _ ∈ [] |- _ => apply not_elem_of_nil in H; destruct H
  end.

Section EvaluationFacts.

Variable hex : list Byte.byte -> string.
Variable web3 : Web3.
Variable tx : dict.

(** The body of the [try] ends normally or with an exception; it has no
    [break] or [continue]. *)
Lemma analyze_body_outcome s :
  wp (analyze_body hex web3 tx) s (fun o _ => o = Ret tt \/ exists e, o = Exc e).
Proof.
  unfold analyze_body.
  repeat wp_prim; eauto.
Qed.

(** What [analyze_transaction] returns is the list as the body left it. *)
Lemma analyze_transaction_eq s :
  exists s', analyze_transaction hex web3 tx s =
    (Ret (threats (analyze_body hex web3 tx (fresh (a_trace s))).2), s').
Proof.
  pose proof (analyze_body_outcome (fresh (a_trace s))) as Hb.
  unfold wp in Hb. unfold analyze_transaction, bind, try_except, set_threats, modify, gets.
  fold (fresh (a_trace s)).
  destruct (analyze_body hex web3 tx (fresh (a_trace s))) as [o s1].
  cbn [fst snd] in *. destruct Hb as [-> | [e ->]]; cbn; eauto.
Qed.

Lemma receipt_high_gas_true r :
  receipt_high_gas r = Ok true ->
  exists d g, r = Some d /\ d !! "gasUsed" = Some (VInt g) /\ 1000000 < g.
Proof.
  destruct r as [d|]; cbn; [|discriminate].
  destruct (dict_truthy d); [|discriminate].
  unfold dict_get. destruct (d !! "gasUsed") as [[]|] eqn:E; cbn; try discriminate.
  intros [= H]. exists d, z. split_and!; auto. lia.
Qed.

Lemma receipt_high_gas_Raise r e :
  receipt_high_gas r = Raise e ->
  exists d g, r = Some d /\ d !! "gasUsed" = Some g /\ forall z, g <> VInt z.
Proof.
  destruct r as [d|]; cbn; [|discriminate].
  destruct (dict_truthy d); [|discriminate].
  unfold dict_get. destruct (d !! "gasUsed") as [[]|] eqn:E; cbn; try discriminate.
  all: intros _; eexists _, _; split_and!; eauto; discriminate.
Qed.

(** With no receipt, only the value rule can fire. *)
Lemma analyze_body_missing_receipt tr :
  wp (analyze_body hex web3 tx) (fresh tr) (fun o s' =>
    forall h, py_hex hex (dict_get tx "transactionHash" (VStr "")) = Ok h ->
      get_transaction_receipt web3 h = Ok None ->
      forall t, t ∈ threats s' -> type t = "high_value_transfer").
Proof.
  unfold analyze_body.
  repeat wp_prim; intros; same_answer; asimpl; in_threats; try reflexivity;
    try discriminate.
Qed.

(** After an exception the list holds no gas threat, and it holds anything
    at all only when the exception is the gas comparison on a [gasUsed] that
    is not an integer. *)
Lemma analyze_body_failure tr :
  wp (analyze_body hex web3 tx) (fresh tr) (fun o s' =>
    forall e, o = Exc e ->
      (forall t, t ∈ threats s' -> type t <> "high_gas_usage") /\
      (threats s' <> [] ->
       exists h r g, py_hex hex (dict_get tx "transactionHash" (VStr "")) = Ok h /\
         get_transaction_receipt web3 h = Ok (Some r) /\
         r !! "gasUsed" = Some g /\ forall z, g <> VInt z)).
Proof.
  unfold analyze_body.
  repeat wp_prim; intros; try discriminate; asimpl.
  all: try (split; [intros; in_threats; discriminate | intros []; reflexivity]).
  all: try match goal with
    | H : receipt_high_gas _ = Raise _ |- _ =>
        apply receipt_high_gas_Raise in H; destruct H as (d & g & -> & Hg & Hn);
        split; [intros; in_threats; discriminate | intros _; eauto 10]
    end.
  all: try match goal with
    | H : receipt_high_gas _ = Ok true |- _ =>
        apply receipt_high_gas_true in H; destruct H as (d & g & -> & Hg & Hn);
        unfold obj_index, dict_index in *; rewrite Hg in *; discriminate
    end.
Qed.

End EvaluationFacts.

Section EvaluationClaims.

Variable hex : list Byte.byte -> string.
Variable web3 : Web3.
Variable tx : dict.

Lemma dict_truthy_lookup (d : dict) k v : d !! k = Some v -> dict_truthy d = true.
Proof.
  intros H. unfold dict_truthy. rewrite bool_decide_eq_false_2; [reflexivity|].
  intros ->. rewrite lookup_empty in H. discriminate.
Qed.

(** On a transaction whose lookups succeed, whose value is an integer and
    whose receipt has an integer [gasUsed], the body ends normally and the
    gas rule fires exactly above 1,000,000. *)
Lemma analyze_body_gas tr h d r v eth g :
  py_hex hex (dict_get tx "transactionHash" (VStr "")) = Ok h ->
  str_truthy h = true ->
  get_transaction web3 h = Ok (Some d) ->
  dict_get d "value" (VInt 0) = VInt v ->
  from_wei web3 (VInt v) = Ok eth ->
  get_transaction_receipt web3 h = Ok (Some r) ->
  r !! "gasUsed" = Some (VInt g) ->
  wp (analyze_body hex web3 tx) (fresh tr) (fun o s' =>
    o = Ret tt /\
    (1000000 < g ->
     {| type := "high_gas_usage";
        description := "High gas usage: " +:+ pretty g +:+ " gas" |} ∈ threats s') /\
    (g <= 1000000 -> forall t, t ∈ threats s' -> type t <> "high_gas_usage")).
Proof.
  intros Hh Ht Hd Hv Hw Hr Hg.
  assert (Hgas : receipt_high_gas (Some r) = Ok (1000000 <? g)).
  { cbn. rewrite (dict_truthy_lookup _ _ _ Hg). unfold dict_get. rewrite Hg. reflexivity. }
  assert (Hidx : obj_index (Some r) "gasUsed" = Ok (VInt g)).
  { cbn. unfold dict_index. rewrite Hg. reflexivity. }
  assert (Hget : obj_get (Some d) "value" (VInt 0) = Ok (VInt v)).
  { cbn. rewrite Hv. reflexivity. }
  assert (Hval : (to_wei_ether 10 <? v) = true ->
            obj_index (Some d) "value" = Ok (VInt v)).
  { cbn. intros Hb. unfold dict_index, dict_get in *.
    destruct (d !! "value"); [congruence|].
    injection Hv as <-. vm_compute in Hb. discriminate. }
  assert (Hgt : py_gt (VInt v) (to_wei_ether 10) = Ok (to_wei_ether 10 <? v))
    by reflexivity.
  unfold analyze_body.
  destruct (to_wei_ether 10 <? v) eqn:Ehv; [specialize (Hval eq_refl)|clear Hval];
    (destruct (1000000 <? g) eqn:Ehg;
      [apply Z.ltb_lt in Ehg|apply Z.ltb_ge in Ehg]);
    repeat wp_prim; asimpl.
  all: split; [reflexivity|]; split; [intros Hlt|intros Hle t Hin].
  all: try lia.
  all: try (in_threats; discriminate).
  all: cbn [py_str]; set_solver.
Qed.

(** A missing receipt is no error: the body ends normally when the rest of
    the transaction is well formed. *)
Lemma analyze_body_tolerates_missing_receipt tr h d v eth :
  py_hex hex (dict_get tx "transactionHash" (VStr "")) = Ok h ->
  get_transaction web3 h = Ok (Some d) ->
  dict_get d "value" (VInt 0) = VInt v ->
  from_wei web3 (VInt v) = Ok eth ->
  get_transaction_receipt web3 h = Ok None ->
  wp (analyze_body hex web3 tx) (fresh tr) (fun o _ => o = Ret tt).
Proof.
  intros Hh Hd Hv Hw Hr.
  assert (Hget : obj_get (Some d) "value" (VInt 0) = Ok (VInt v)).
  { cbn. rewrite Hv. reflexivity. }
  assert (Hval : (to_wei_ether 10 <? v) = true ->
            obj_index (Some d) "value" = Ok (VInt v)).
  { cbn. intros Hb. unfold dict_index, dict_get in *.
    destruct (d !! "value"); [congruence|].
    injection Hv as <-. vm_compute in Hb. discriminate. }
  assert (Hgt : py_gt (VInt v) (to_wei_ether 10) = Ok (to_wei_ether 10 <? v))
    by reflexivity.
  assert (Hfailed : receipt_failed None = false) by reflexivity.
  assert (Hhigh : receipt_high_gas None = Ok false) by reflexivity.
  unfold analyze_body.
  destruct (to_wei_ether 10 <? v) eqn:Ehv; [specialize (Hval eq_refl)|clear Hval];
    repeat wp_prim; reflexivity.
Qed.

End EvaluationClaims.

(** ** Steps of the monitor that only write to the trace *)

Lemma set_trace_app t1 t2 s :
  set_trace (trace (set_trace (trace s ++ t1) s) ++ t2) (set_trace (trace s ++ t1) s) =
  set_trace (trace s ++ t1 ++ t2) s.
Proof. unfold set_trace. cbn. rewrite app_assoc. reflexivity. Qed.

Lemma set_trace_nil s : set_trace (trace s ++ []) s = s.
Proof. destruct s. unfold set_trace. cbn. rewrite app_nil_r. reflexivity. Qed.

Lemma add_event_set_trace e t s :
  add_event e (set_trace (trace s ++ t) s) = set_trace (trace s ++ t ++ [e]) s.
Proof. unfold add_event, State_traced, set_trace. cbn. rewrite app_assoc. reflexivity. Qed.

Lemma add_event_eq e s : add_event e s = set_trace (trace s ++ [e]) s.
Proof. reflexivity. Qed.

Lemma forallb_app_true {A} (P : A -> bool) l1 l2 :
  forallb P l1 = true -> forallb P l2 = true -> forallb P (l1 ++ l2) = true.
Proof. intros H1 H2. rewrite forallb_app, H1, H2. reflexivity. Qed.

Lemma filter_none {A} (P Q : A -> bool) l :
  forallb P l = true -> (forall x, P x = true -> Q x = false) -> List.filter Q l = [].
Proof.
  intros Hl HPQ. induction l as [|x l IH]; [reflexivity|].
  cbn in *. apply andb_true_iff in Hl as [Hx Hl].
  rewrite (HPQ x Hx). auto.
Qed.

Section MonitorSteps.

Variable hex : list Byte.byte -> string.

Lemma analyze_body_lines web3 tx :
  wp (analyze_body hex web3 tx) (fresh []) (fun _ s' => forallb is_log (a_trace s') = true).
Proof.
  unfold analyze_body.
  repeat wp_prim; reflexivity.
Qed.

Lemma lines_of_logs web3 tx : forallb is_log (lines_of hex web3 tx) = true.
Proof.
  unfold lines_of.
  pose proof (analyze_body_lines web3 tx) as Hl.
  pose proof (analyze_body_outcome hex web3 tx (fresh [])) as Hb.
  unfold wp in Hl, Hb.
  unfold analyze_transaction, bind, try_except, set_threats, modify, gets, log, emit.
  change {| threats := []; a_trace := a_trace (fresh []) |} with (fresh []).
  destruct (analyze_body hex web3 tx (fresh [])) as [o s1].
  cbn [fst snd] in *. destruct Hb as [-> | [e ->]]; cbn; [assumption|].
  apply forallb_app_true; [assumption | reflexivity].
Qed.

Lemma call_analyze_transaction_eq web3 tx s :
  call_analyze_transaction hex web3 tx s =
    (Ret (threats_of hex web3 tx), set_trace (trace s ++ lines_of hex web3 tx) s).
Proof.
  unfold call_analyze_transaction, threats_of, lines_of.
  destruct (analyze_transaction_eq hex web3 tx (fresh [])) as [s' E].
  rewrite E. reflexivity.
Qed.

(** The loop over the transactions returns the threats of all of them, in
    order, and only logs. *)
Lemma analyze_all_spec web3 txs : forall total idx acc s,
  exists evs,
    analyze_all hex web3 total idx txs acc s =
      (Ret (acc ++ found_threats hex web3 txs), set_trace (trace s ++ evs) s) /\
    forallb is_log evs = true.
Proof.
  induction txs as [|tx txs IH]; intros total idx acc s.
  - exists []. cbn. unfold found_threats. cbn. rewrite app_nil_r, set_trace_nil. auto.
  - cbn [analyze_all]. unfold log, emit, bind at 1, modify.
    unfold bind at 1. rewrite call_analyze_transaction_eq.
    rewrite add_event_eq, set_trace_app.
    unfold found_threats. cbn [map concat]. fold (found_threats hex web3 txs).
    destruct (threats_of hex web3 tx) as [|t ts] eqn:Et; cbn [list_truthy].
    + destruct (IH total (idx + 1) acc
        (set_trace (trace s ++ [EvLog Info "Analyzing transaction {}/{}" [VInt idx; VInt total]]
           ++ lines_of hex web3 tx) s)) as (evs & E & Hevs).
      rewrite E, set_trace_app. eexists. split; [reflexivity|].
      repeat apply forallb_app_true; auto using lines_of_logs.
    + unfold bind at 1, modify. rewrite add_event_set_trace.
      destruct (IH total (idx + 1) (acc ++ t :: ts)
        (set_trace (trace s ++ ([EvLog Info "Analyzing transaction {}/{}" [VInt idx; VInt total]]
           ++ lines_of hex web3 tx) ++
           [EvLog Warning "Found {} threats in transaction" [VInt (len (t :: ts))]]) s))
        as (evs & E & Hevs).
      rewrite E, set_trace_app, <- app_assoc. eexists. split; [reflexivity|].
      repeat apply forallb_app_true; auto using lines_of_logs.
Qed.

End MonitorSteps.

Section Laws.
Context {S A B C : Type}.
Implicit Types (s : S).
Lemma bind_ret (a : A) (k : A -> M S B) s : bind (ret a) k s = k a s.
Proof. reflexivity. Qed.
Lemma bind_modify (f : S -> S) (k : unit -> M S B) s : bind (modify f) k s = k tt (f s).
Proof. reflexivity. Qed.
Lemma bind_gets (f : S -> A) (k : A -> M S B) s : bind (gets f) k s = k (f s) s.
Proof. reflexivity. Qed.
Lemma bind_assoc (m : M S A) (k1 : A -> M S B) (k2 : B -> M S C) s :
  bind (bind m k1) k2 s = bind m (fun x => bind (k1 x) k2) s.
Proof. unfold bind. destruct (m s) as [[]]; reflexivity. Qed.
Lemma bind_eq (m : M S A) (k : A -> M S B) s a s' :
  m s = (Ret a, s') -> bind m k s = k a s'.
Proof. unfold bind. intros ->. reflexivity. Qed.
End Laws.

Section Alerting.

Variable env : Env.
Variable contract_id : Z.

Lemma notify_one_spec c ts e s :
  exists evs,
    notify_one env c ts e s = (Ret tt, set_trace (trace s ++ evs) s) /\
    forallb is_log_or_email evs = true /\
    List.filter is_email evs = [email_event c ts e].
Proof.
  unfold notify_one, try_except, log, emit. cbv zeta.
  rewrite bind_modify.
  destruct (send_alert_email env (email e) "Contract Security Alert"
              (notification_message c ts)) as [[]|ex];
    cbn [lift bind ret raise modify fst snd]; unfold modify;
    rewrite !add_event_eq, set_trace_app;
    eexists; split_and!; reflexivity.
Qed.

(** The loop over the subscribers never fails: it calls the transport once
    per subscriber, in order. *)
Lemma notify_loop_spec c ts emails : forall s,
  exists evs,
    for_each emails (notify_one env c ts) s = (Ret tt, set_trace (trace s ++ evs) s) /\
    forallb is_log_or_email evs = true /\
    List.filter is_email evs = map (email_event c ts) emails.
Proof.
  induction emails as [|e emails IH]; intros s.
  - exists []. cbn. rewrite set_trace_nil. auto.
  - cbn [for_each].
    destruct (notify_one_spec c ts e s) as (evs1 & E1 & H1 & M1).
    rewrite (bind_eq _ _ _ _ _ E1).
    destruct (IH (set_trace (trace s ++ evs1) s)) as (evs & E & Hevs & Hmail).
    rewrite E, set_trace_app. eexists. split_and!; [reflexivity|..].
    + apply forallb_app_true; assumption.
    + rewrite List.filter_app, M1, Hmail. reflexivity.
Qed.

Lemma send_notifications_spec c ts s :
  exists evs,
    send_notifications env contract_id c ts s = (Ret tt, set_trace (trace s ++ evs) s) /\
    forallb is_log_or_email evs = true /\
    (db_query_emails env = Ok tt ->
     List.filter is_email evs = map (email_event c ts) (subscribers (db s) contract_id)).
Proof.
  unfold send_notifications, query_alert_emails, try_except.
  rewrite bind_assoc.
  destruct (db_query_emails env) as [[]|ex]; cbn [lift].
  - rewrite bind_ret, bind_gets.
    destruct (notify_loop_spec c ts (subscribers (db s) contract_id) s)
      as (evs & E & Hevs & Hmail).
    unfold subscribers in *. rewrite E. eauto.
  - cbn. exists [EvLog Error "Error sending notifications: {}" [VStr (exn_str ex)]].
    split_and!; [reflexivity..|discriminate].
Qed.

Lemma add_loop_eq ts : forall s,
  for_each ts (create_alert contract_id) s =
  (Ret tt,
   set_trace (trace s ++ flat_map (fun t =>
       [EvAdd (alert_of contract_id t);
        EvLog Warning "Created alert: {} - {}" [VStr (type t); VStr (description t)]]) ts)
     (set_session {| dirty := dirty (session s);
                     added := added (session s) ++ map (alert_of contract_id) ts |} s)).
Proof.
  induction ts as [|t ts IH]; intros s.
  - cbn. destruct s as [d [di ad] m l tr]. unfold set_trace, set_session. cbn.
    rewrite !app_nil_r. reflexivity.
  - cbn [for_each]. unfold create_alert at 1, session_add, log, emit.
    rewrite !bind_assoc, bind_modify, bind_modify. rewrite bind_modify.
    rewrite IH. f_equal.
    destruct s as [d [di ad] m l tr]. unfold set_trace, set_session, add_event, State_traced.
    cbn. unfold set_trace. cbn. rewrite <- !app_assoc. reflexivity.
Qed.

(** The alerting block: the row change and the alert rows are put in the
    session, then the dispatcher runs, then the session is committed. *)
Lemma raise_alerts_eq c ts s :
  raise_alerts env contract_id c ts s =
  (send_notifications env contract_id (warned c) ts ;;;
   commit env ;;;
   log Info "All alerts and notifications processed" []) (staged contract_id c ts s).
Proof.
  unfold raise_alerts, assign_status, assign_threat_level, log, emit.
  cbv zeta.
  repeat first [rewrite bind_assoc | rewrite bind_modify | rewrite bind_ret].
  rewrite (bind_eq _ _ _ _ _ (add_loop_eq ts _)).
  f_equal.
  destruct s as [d [di ad] m l tr].
  unfold staged, staging_events, staged_session, set_trace, set_session, add_event,
    State_traced, warned.
  cbn. unfold set_trace. cbn. rewrite insert_insert_eq, <- !app_assoc. reflexivity.
Qed.

End Alerting.

Section AlertingResult.

Variable env : Env.
Variable contract_id : Z.

Lemma raise_alerts_spec c ts s :
  exists evs,
    forallb is_log_or_email evs = true /\
    (db_query_emails env = Ok tt ->
     List.filter is_email evs =
       map (email_event (warned c) ts) (subscribers (db s) contract_id)) /\
    raise_alerts env contract_id c ts s =
      match db_commit env with
      | Ok _ => (Ret tt, committed contract_id c ts evs s)
      | Raise e => (Exc e, commit_failed contract_id c ts evs s)
      end.
Proof.
  rewrite raise_alerts_eq.
  destruct (send_notifications_spec env contract_id (warned c) ts
              (staged contract_id c ts s)) as (evs & E & Hevs & Hmail).
  exists evs. split; [assumption|]. split; [exact Hmail|].
  rewrite (bind_eq _ _ _ _ _ E).
  unfold commit, log, emit.
  destruct (db_commit env) as [[]|e].
  - rewrite !bind_assoc, !bind_modify. unfold modify. f_equal.
    destruct s as [d [di ad] m l tr].
    unfold committed, staged, set_trace, set_session, set_db, add_event, State_traced.
    cbn. unfold set_trace. cbn. rewrite <- !app_assoc. reflexivity.
  - rewrite bind_assoc, bind_modify. cbn. f_equal.
    destruct s as [d [di ad] m l tr].
    unfold commit_failed, staged, set_trace, set_session, set_db, add_event, State_traced.
    cbn. rewrite <- !app_assoc. reflexivity.
Qed.

End AlertingResult.

(** ** Rules for the steps of the monitor *)

Lemma wp_try_except_if {S A} (catches : exn -> bool) (body : M S A) handler s
    (Q : outcome A -> S -> Prop) :
  wp body s (fun o s' =>
    match o with
    | Exc e => if catches e then wp (handler e) s' Q else Q (Exc e) s'
    | _ => Q o s'
    end) ->
  wp (try_except_if catches body handler) s Q.
Proof.
  unfold wp, try_except_if. destruct (body s) as [[| e | |] s']; auto.
  cbn. destruct (catches e); auto.
Qed.

Lemma wp_with_session {A} (body : M State A) s (Q : outcome A -> State -> Prop) :
  wp body (set_session empty_session s) (fun o s' => Q o (set_session empty_session s')) ->
  wp (with_session body) s Q.
Proof.
  unfold wp, with_session. destruct (body (set_session empty_session s)). auto.
Qed.

Lemma wp_eq {S A} (m : M S A) s o s' (Q : outcome A -> S -> Prop) :
  m s = (o, s') -> Q o s' -> wp m s Q.
Proof. unfold wp. intros ->. auto. Qed.

Lemma wp_analyze_all hex web3 total idx txs acc s (Q : outcome (list Threat) -> State -> Prop) :
  (forall evs, forallb is_log evs = true ->
     Q (Ret (acc ++ found_threats hex web3 txs)) (set_trace (trace s ++ evs) s)) ->
  wp (analyze_all hex web3 total idx txs acc) s Q.
Proof.
  intros H. destruct (analyze_all_spec hex web3 txs total idx acc s) as (evs & E & Hevs).
  eapply wp_eq; eauto.
Qed.

Lemma wp_raise_alerts env contract_id c ts s (Q : outcome unit -> State -> Prop) :
  (forall evs, forallb is_log_or_email evs = true ->
     (db_query_emails env = Ok tt ->
      List.filter is_email evs =
        map (email_event (warned c) ts) (subscribers (db s) contract_id)) ->
     match db_commit env with
     | Ok _ => Q (Ret tt) (committed contract_id c ts evs s)
     | Raise e => Q (Exc e) (commit_failed contract_id c ts evs s)
     end) ->
  wp (raise_alerts env contract_id c ts) s Q.
Proof.
  intros H. destruct (raise_alerts_spec env contract_id c ts s) as (evs & Hevs & Hmail & E).
  specialize (H evs Hevs Hmail).
  destruct (db_commit env); eapply wp_eq; eauto.
Qed.

Lemma wp_break {S A} s (Q : outcome A -> S -> Prop) : Q Brk s -> wp break_ s Q.
Proof. auto. Qed.

Lemma wp_continue {S A} s (Q : outcome A -> S -> Prop) : Q Cont s -> wp continue_ s Q.
Proof. auto. Qed.

(** A step of the monitor: the loops and the alerting block by their
    lemmas, the other functions by their definitions. *)
Ltac wp_basic :=
  lazymatch goal with
  | |- wp (analyze_all _ _ _ _ _ _) _ _ =>
      apply wp_analyze_all; intros ? ?
  | |- wp (raise_alerts _ _ _ _) _ _ =>
      apply wp_raise_alerts; intros ? ? ?
  | |- wp (with_session _) _ _ => apply wp_with_session
  | |- wp (try_except_if _ _ _) _ _ => apply wp_try_except_if
  | |- wp break_ _ _ => apply wp_break
  | |- wp continue_ _ _ => apply wp_continue
  | |- wp (sleep _) _ _ => apply wp_modify
  | |- wp (query_contract _ _) _ _ => unfold query_contract
  | |- wp (get_web3 _ _) _ _ => unfold get_web3
  | |- wp (eth_get_logs _ _) _ _ => unfold eth_get_logs
  | |- wp (get_contract_transactions _ _ _ _) _ _ => unfold get_contract_transactions
  | |- wp (scan_window _ _ _ _ _ _ _ _) _ _ => unfold scan_window
  | _ => wp_prim
  end.

Lemma wp_run {S A} (m : M S A) s o (P : S -> Prop) :
  wp m s (fun o' s' => o' = o /\ P s') -> exists s', m s = (o, s') /\ P s'.
Proof. unfold wp. destruct (m s) as [o' s']. cbn. intros [-> H]. eauto. Qed.

Ltac state_simpl :=
  cbn [db session monitors last_processed_block trace set_db set_session set_monitors
       set_last_processed_block set_trace add_event State_traced
       committed commit_failed staged] in *.

(** Events of one class are not events of another. *)
Ltac other_class := intros []; cbn; intros; first [reflexivity | discriminate].

Ltac drop_chunks :=
  repeat match goal with
  | H : forallb ?P ?evs = true |- context [List.filter ?Q ?evs] =>
      rewrite (filter_none P Q evs H) by other_class
  end.

Ltac filter_simpl :=
  rewrite ?List.filter_app;
  cbn [List.filter is_set_attr is_add is_commit is_email is_sleep is_error_log
       is_get_logs is_spawn app];
  drop_chunks;
  repeat match goal with
  | H : List.filter ?Q ?evs = [] |- context [List.filter ?Q ?evs] => rewrite H
  end;
  rewrite ?app_nil_r.

Lemma filter_staging_set_attr contract_id c ts :
  List.filter is_set_attr (staging_events contract_id c ts) =
    [EvSetAttr contract_id "status" "Warning"; EvSetAttr contract_id "threat_level" "Medium"].
Proof.
  unfold staging_events. rewrite List.filter_app. cbn [List.filter is_set_attr app].
  induction ts as [|t ts IH]; [reflexivity|]. cbn. exact IH.
Qed.

Lemma filter_staging_add contract_id c ts :
  List.filter is_add (staging_events contract_id c ts) =
    map (fun t => EvAdd (alert_of contract_id t)) ts.
Proof.
  unfold staging_events. rewrite List.filter_app. cbn [List.filter is_add app].
  induction ts as [|t ts IH]; [reflexivity|]. cbn. rewrite IH. reflexivity.
Qed.

Lemma filter_staging_other (Q : event -> bool) contract_id c ts :
  (forall e, (is_log e || is_set_attr e || is_add e) = true -> Q e = false) ->
  List.filter Q (staging_events contract_id c ts) = [].
Proof.
  intros HQ. unfold staging_events. rewrite List.filter_app.
  cbn [List.filter app]. rewrite !HQ by reflexivity. cbn [app].
  induction ts as [|t ts IH]; [reflexivity|].
  cbn [flat_map List.filter app]. rewrite !HQ by reflexivity. exact IH.
Qed.

Ltac trace_eq := rewrite ?add_event_eq, ?set_trace_app; cbn [app]; reflexivity.

Section Fetch.

Variable web3 : Web3.
Variable addr : string.
Variables from_block to_block : Z.

(** When one of the two queries fails with [BlockNotFound], the fetch
    returns the empty list, whatever the other query returned. *)
Lemma fetch_range_unavailable s :
  range_unavailable web3 addr from_block to_block ->
  exists evs,
    get_contract_transactions web3 addr from_block to_block s =
      (Ret [], set_trace (trace s ++ evs) s) /\
    forallb (is_log_or_query from_block to_block) evs = true /\
    List.filter is_error_log evs = [] /\
    In (EvLog Warning "Block range {}-{} not available, adjusting range"
          [VInt from_block; VInt to_block]) evs.
Proof.
  unfold range_unavailable, recipient_filter, sender_filter.
  intros [(e & H1 & He) | (l & e & H1 & H2 & He)].
  all: cut (wp (get_contract_transactions web3 addr from_block to_block) s
         (fun o s' => o = Ret [] /\ exists evs, s' = set_trace (trace s ++ evs) s /\
            forallb (is_log_or_query from_block to_block) evs = true /\
            List.filter is_error_log evs = [] /\
            In (EvLog Warning "Block range {}-{} not available, adjusting range"
                  [VInt from_block; VInt to_block]) evs));
    [ intros H; apply wp_run in H; destruct H as (s' & E & evs & -> & H); eauto | ].
  all: repeat wp_basic; (split; [reflexivity|]); eexists; (split; [trace_eq|]);
    cbn; rewrite !Z.eqb_refl; auto 10.
Qed.

Lemma fetch_window_yields txs s :
  window_yields web3 addr from_block to_block txs ->
  exists evs,
    get_contract_transactions web3 addr from_block to_block s =
      (Ret txs, set_trace (trace s ++ evs) s) /\
    forallb (is_log_or_query from_block to_block) evs = true /\
    List.filter is_error_log evs = [].
Proof.
  intros [(l1 & l2 & H1 & H2 & ->) | [Hun ->]].
  - unfold recipient_filter, sender_filter in *.
    cut (wp (get_contract_transactions web3 addr from_block to_block) s
         (fun o s' => o = Ret (l1 ++ l2) /\ exists evs, s' = set_trace (trace s ++ evs) s /\
            forallb (is_log_or_query from_block to_block) evs = true /\
            List.filter is_error_log evs = []));
      [ intros H; apply wp_run in H; destruct H as (s' & E & evs & -> & H); eauto | ].
    repeat wp_basic; (split; [reflexivity|]); eexists; (split; [trace_eq|]);
      cbn; rewrite !Z.eqb_refl; auto.
  - destruct (fetch_range_unavailable s Hun) as (evs & E & H1 & H2 & _). eauto.
Qed.

End Fetch.

Lemma wp_fetch web3 addr from_block to_block txs s (Q : outcome (list dict) -> State -> Prop) :
  window_yields web3 addr from_block to_block txs ->
  (forall evs, forallb (is_log_or_query from_block to_block) evs = true ->
     List.filter is_error_log evs = [] ->
     Q (Ret txs) (set_trace (trace s ++ evs) s)) ->
  wp (get_contract_transactions web3 addr from_block to_block) s Q.
Proof.
  intros Hw H. destruct (fetch_window_yields _ _ _ _ txs s Hw) as (evs & E & H1 & H2).
  eapply wp_eq; eauto.
Qed.

(** The same, with the fetch by its lemma when the answers of the log
    queries are known. *)
Ltac wp_step :=
  lazymatch goal with
  | |- wp (get_contract_transactions _ _ _ _) _ _ =>
      first [ eapply wp_fetch; [eassumption | intros ? ? ?] | wp_basic ]
  | _ => wp_basic
  end.

Section Paths.

Variable hex : list Byte.byte -> string.
Variable env : Env.
Variable contract_id : Z.

(** With no code at the address the iteration ends by [continue] right
    after the error line. *)
Lemma no_code_iteration s c url addr cur :
  reaches_scan env s contract_id c url addr cur ->
  get_code (connect env url) addr = Ok [] ->
  exists s',
    monitor_iteration hex env contract_id s = (Cont, s') /\
    last_processed_block s' = last_processed_block s /\
    db s' = db s /\
    session s' = empty_session /\
    monitors s' = monitors s /\
    trace s' = trace s ++
      [EvLog Info "Monitoring contract {} on {}" [VStr (address c); VStr (network c)];
       EvLog Info "Connecting to {} network at {}" [VStr (network c); VStr url];
       EvLog Info "Scanning blocks {} to {} for contract activity"
         [VInt (window_start s contract_id cur); VInt cur];
       EvLog Error "No contract code found at address {}" [VStr addr]].
Proof.
  intros (Hdb & Hc & Hurl & Ht & Haddr & Hcur) Hcode.
  apply wp_run. unfold monitor_iteration.
  repeat wp_step. state_simpl. unfold window_start.
  split_and!; try reflexivity. rewrite <- !app_assoc. reflexivity.
Qed.

(** A window whose transactions yield no threat: nothing is written, the
    cursor advances and the configured sleep follows. *)
Lemma quiet_iteration s c url addr cur txs :
  reaches_scan env s contract_id c url addr cur ->
  reaches_fetch (connect env url) addr ->
  window_yields (connect env url) addr (window_start s contract_id cur) cur txs ->
  found_threats hex (connect env url) txs = [] ->
  exists s',
    monitor_iteration hex env contract_id s = (Ret tt, s') /\
    db s' = db s /\
    session s' = empty_session /\
    monitors s' = monitors s /\
    last_processed_block s' = <[contract_id := cur]> (last_processed_block s) /\
    List.filter is_set_attr (trace s') = List.filter is_set_attr (trace s) /\
    List.filter is_add (trace s') = List.filter is_add (trace s) /\
    List.filter is_commit (trace s') = List.filter is_commit (trace s) /\
    List.filter is_email (trace s') = List.filter is_email (trace s) /\
    List.filter is_sleep (trace s') =
      List.filter is_sleep (trace s) ++ [EvSleep (get_sleep_time (monitoring_frequency c))].
Proof.
  intros (Hdb & Hc & Hurl & Ht & Haddr & Hcur) (code & bal & eth & Hcode & Hlen & Hbal & Heth)
    Hw Hnone.
  unfold window_start in Hw.
  apply wp_run. unfold monitor_iteration.
  repeat wp_step.
  all: rewrite ?Hnone, ?app_nil_l; repeat wp_step.
  all: state_simpl; split_and!; try reflexivity.
  all: filter_simpl; reflexivity.
Qed.

(** A window whose transactions yield threats: one assignment of each of
    the two fields, one alert per threat, and with a successful commit the
    row and the alerts are in the database. *)
Lemma alerting_iteration s c url addr cur txs :
  reaches_scan env s contract_id c url addr cur ->
  reaches_fetch (connect env url) addr ->
  window_yields (connect env url) addr (window_start s contract_id cur) cur txs ->
  found_threats hex (connect env url) txs <> [] ->
  exists s',
    monitor_iteration hex env contract_id s = (Ret tt, s') /\
    List.filter is_set_attr (trace s') =
      List.filter is_set_attr (trace s) ++
      [EvSetAttr contract_id "status" "Warning";
       EvSetAttr contract_id "threat_level" "Medium"] /\
    List.filter is_add (trace s') =
      List.filter is_add (trace s) ++
      map (fun t => EvAdd (alert_of contract_id t)) (found_threats hex (connect env url) txs) /\
    (db_commit env = Ok tt ->
     contracts (db s') = <[contract_id := warned c]> (contracts (db s)) /\
     alerts (db s') =
       alerts (db s) ++ map (alert_of contract_id) (found_threats hex (connect env url) txs) /\
     alert_emails (db s') = alert_emails (db s) /\
     last_processed_block s' = <[contract_id := cur]> (last_processed_block s)) /\
    (forall e, db_commit env = Raise e ->
     db s' = db s /\ last_processed_block s' = last_processed_block s).
Proof.
  intros (Hdb & Hc & Hurl & Ht & Haddr & Hcur) (code & bal & eth & Hcode & Hlen & Hbal & Heth)
    Hw Hsome.
  unfold window_start in Hw.
  destruct (found_threats hex (connect env url) txs) as [|t ts] eqn:Hts; [congruence|].
  clear Hsome.
  assert (Htxs : list_truthy txs = true).
  { destruct txs; [discriminate Hts | reflexivity]. }
  apply wp_run. unfold monitor_iteration.
  repeat wp_step.
  all: state_simpl; split_and!; try reflexivity; try discriminate.
  all: try (filter_simpl; rewrite ?filter_staging_set_attr, ?filter_staging_add;
            filter_simpl; reflexivity).
  all: try (intros ? [=]; auto).
  intros _. split_and!; try reflexivity.
  cbn. rewrite insert_empty, <- insert_union_singleton_l. reflexivity.
Qed.

(** The window is rejected as unavailable: the fetch gives the empty list
    and the iteration goes on as for a window without transactions. *)
Lemma unavailable_iteration s c url addr cur :
  reaches_scan env s contract_id c url addr cur ->
  reaches_fetch (connect env url) addr ->
  range_unavailable (connect env url) addr (window_start s contract_id cur) cur ->
  exists s',
    monitor_iteration hex env contract_id s = (Ret tt, s') /\
    last_processed_block s' = <[contract_id := cur]> (last_processed_block s) /\
    db s' = db s /\
    List.filter is_error_log (trace s') = List.filter is_error_log (trace s) /\
    In (EvLog Info "No new transactions found for contract {}" [VStr addr]) (trace s').
Proof.
  intros (Hdb & Hc & Hurl & Ht & Haddr & Hcur) (code & bal & eth & Hcode & Hlen & Hbal & Heth)
    Hun.
  assert (Hw : window_yields (connect env url) addr
                 (window_start s contract_id cur) cur []) by (right; auto).
  unfold window_start in Hw.
  apply wp_run. unfold monitor_iteration.
  repeat wp_step.
  state_simpl; split_and!; try reflexivity.
  - filter_simpl. reflexivity.
  - rewrite !in_app_iff. cbn. auto 10.
Qed.

End Paths.

Section AlertingOrder.

Variable env : Env.
Variable contract_id : Z.

Lemma commit_ok s :
  db_commit env = Ok tt ->
  (commit env ;;; log Info "All alerts and notifications processed" []) s =
  (Ret tt,
   add_event (EvLog Info "All alerts and notifications processed" [])
     (set_session empty_session
        (set_db (apply_session (session (add_event (EvCommit true) s))
                   (db (add_event (EvCommit true) s)))
           (add_event (EvCommit true) s)))).
Proof. intros H. unfold commit. rewrite H. reflexivity. Qed.

Lemma commit_raises s e :
  db_commit env = Raise e ->
  (commit env ;;; log Info "All alerts and notifications processed" []) s =
  (Exc e, add_event (EvCommit false) s).
Proof. intros H. unfold commit. rewrite H. reflexivity. Qed.

End AlertingOrder.

Lemma forallb_weaken {A} (P Q : A -> bool) l :
  forallb P l = true -> (forall x, P x = true -> Q x = true) -> forallb Q l = true.
Proof.
  intros Hl HPQ. induction l as [|x l IH]; [reflexivity|].
  cbn in *. apply andb_true_iff in Hl as [Hx Hl]. rewrite (HPQ x Hx). auto.
Qed.

Lemma forallb_staging (Q : event -> bool) contract_id c ts :
  (forall e, (is_log e || is_set_attr e || is_add e) = true -> Q e = true) ->
  forallb Q (staging_events contract_id c ts) = true.
Proof.
  intros HQ. unfold staging_events. rewrite forallb_app.
  cbn [forallb]. rewrite !HQ by reflexivity. cbn [andb].
  induction ts as [|t ts IH]; [reflexivity|].
  cbn [flat_map forallb app]. rewrite !HQ by reflexivity. exact IH.
Qed.

(** Events of one class are in the window class. *)
Ltac in_class := intros []; cbn; intros; first [reflexivity | discriminate].

Ltac window_chunks :=
  rewrite ?forallb_app; cbn [forallb in_window fromBlock toBlock andb];
  rewrite ?Z.eqb_refl; cbn [andb];
  repeat match goal with
  | H : forallb ?P ?evs = true |- context [forallb ?Q ?evs] =>
      rewrite (forallb_weaken P Q evs H) by in_class
  end;
  rewrite ?forallb_staging by in_class;
  cbn [andb]; try reflexivity.

Section Iteration.

Variable hex : list Byte.byte -> string.
Variable env : Env.
Variable contract_id : Z.

Lemma monitor_iteration_effect s :
  wp (monitor_iteration hex env contract_id) s (fun o s' =>
    (forall e, o <> Exc e) /\ iteration_effect env contract_id s s').
Proof.
  unfold monitor_iteration.
  repeat wp_step.
  all: (split; [discriminate|]); unfold iteration_effect, window_start; state_simpl.
  all: eexists; (split; [rewrite <- ?app_assoc; reflexivity|]).
  all: try (left; split; reflexivity).
  all: right; do 3 eexists;
    split_and!; [eassumption | eassumption | eassumption
                | first [left; reflexivity | right; reflexivity] | window_chunks].
Qed.

(** An iteration writes nothing unless it got as far as a window whose
    transactions yield a threat. *)
Lemma monitor_iteration_writes s :
  wp (monitor_iteration hex env contract_id) s (fun o s' =>
    writes_nothing s s' \/
    exists c url addr cur txs,
      reaches_scan env s contract_id c url addr cur /\
      window_yields (connect env url) addr (window_start s contract_id cur) cur txs /\
      found_threats hex (connect env url) txs <> []).
Proof.
  unfold monitor_iteration.
  repeat wp_basic.
  all: unfold writes_nothing, window_start; state_simpl.
  all: first
    [ left; split; [reflexivity|]; eexists; split; [rewrite <- ?app_assoc; reflexivity|];
      rewrite ?List.filter_app; cbn [List.filter is_write is_set_attr is_add is_commit orb app];
      drop_chunks; reflexivity
    | right; do 5 eexists; split_and!;
      [ repeat match goal with a : unit |- _ => destruct a end;
        unfold reaches_scan; split_and!;
        first [ eassumption | apply negb_false_iff; eassumption ]
      | left; eexists _, _; split_and!; [eassumption | eassumption | reflexivity]
      | match goal with H : list_truthy _ = true |- _ <> [] =>
          let Hnil := fresh in intros Hnil; cbn [app] in H; rewrite Hnil in H; discriminate H
        end ] ].
Qed.

End Iteration.

Section Loop.

Variable hex : list Byte.byte -> string.
Variable contract_id : Z.






End Loop.

(** ** The handler of the evaluation *)

Section Handler.

Variable hex : list Byte.byte -> string.
Variable web3 : Web3.
Variable tx : dict.

(** What the handler of [analyze_transaction] does with a failure of the
    body: one error line with the text of the exception is logged after the
    lines of the body, and the list is returned as the failure left it. *)
Lemma analyze_transaction_failure tr e s1 :
  analyze_body hex web3 tx (fresh tr) = (Exc e, s1) ->
  analyze_transaction hex web3 tx (fresh tr) =
    (Ret (threats s1),
     add_event (EvLog Error "Error analyzing transaction: {}" [VStr (exn_str e)]) s1).
Proof.
  intros Hb.
  unfold analyze_transaction, bind, try_except, set_threats, modify, gets, log, emit.
  change {| threats := []; a_trace := a_trace (fresh tr) |} with (fresh tr).
  rewrite Hb. reflexivity.
Qed.

(** When the body ends normally nothing is added to its lines. *)
Lemma analyze_transaction_success tr s1 :
  analyze_body hex web3 tx (fresh tr) = (Ret tt, s1) ->
  analyze_transaction hex web3 tx (fresh tr) = (Ret (threats s1), s1).
Proof.
  intros Hb.
  unfold analyze_transaction, bind, try_except, set_threats, modify, gets.
  change {| threats := []; a_trace := a_trace (fresh tr) |} with (fresh tr).
  rewrite Hb. reflexivity.
Qed.

End Handler.

(** * The claims *)

(** ** Threat evaluation *)

(** C3, as the code has it: [analyze_transaction] never raises; with no
    receipt the two receipt rules do not fire and the evaluation of an
    otherwise well-formed transaction ends without an exception; when the
    body does fail, the failure is logged, one error line with the text of
    the exception after the lines of the body, and the result is the list
    as the failure left it, which never holds a gas threat and is empty
    unless the failure is the gas comparison on a receipt whose [gasUsed]
    is not an integer; when the body does not fail no line is added. *)
Theorem analyze_transaction_never_raises_keeps_found
    (hex : list Byte.byte -> string) (web3 : Web3) (tx : dict) (tr : list event) :
  exists ts s',
    analyze_transaction hex web3 tx (fresh tr) = (Ret ts, s') /\
    (forall h, py_hex hex (dict_get tx "transactionHash" (VStr "")) = Ok h ->
       get_transaction_receipt web3 h = Ok None ->
       (forall t, t ∈ ts -> type t = "high_value_transfer") /\
       (forall d v eth, get_transaction web3 h = Ok (Some d) ->
          dict_get d "value" (VInt 0) = VInt v ->
          from_wei web3 (VInt v) = Ok eth ->
          exists s1, analyze_body hex web3 tx (fresh tr) = (Ret tt, s1))) /\
    (forall e s1, analyze_body hex web3 tx (fresh tr) = (Exc e, s1) ->
       ts = threats s1 /\
       a_trace s' =
         a_trace s1 ++ [EvLog Error "Error analyzing transaction: {}" [VStr (exn_str e)]] /\
       (forall t, t ∈ ts -> type t <> "high_gas_usage") /\
       (ts <> [] ->
        exists h r g, py_hex hex (dict_get tx "transactionHash" (VStr "")) = Ok h /\
          get_transaction_receipt web3 h = Ok (Some r) /\
          r !! "gasUsed" = Some g /\ forall z, g <> VInt z)) /\
    (forall s1, analyze_body hex web3 tx (fresh tr) = (Ret tt, s1) ->
       ts = threats s1 /\ s' = s1).
Proof.
  destruct (analyze_transaction_eq hex web3 tx (fresh tr)) as [s' E].
  cbn [a_trace fresh] in E.
  pose proof (analyze_body_missing_receipt hex web3 tx tr) as Hmiss.
  pose proof (analyze_body_failure hex web3 tx tr) as Hfail.
  unfold wp in Hmiss, Hfail.
  eexists _, s'. split; [exact E|]. split; [|split].
  - intros h Hh Hr. split; [exact (Hmiss h Hh Hr)|].
    intros d v eth Hd Hv Hw.
    pose proof (analyze_body_tolerates_missing_receipt hex web3 tx tr h d v eth
                  Hh Hd Hv Hw Hr) as Hok.
    unfold wp in Hok.
    destruct (analyze_body hex web3 tx (fresh tr)) as [o s1]. cbn in Hok. subst o. eauto.
  - intros e s1 Hb.
    pose proof (analyze_transaction_failure hex web3 tx tr e s1 Hb) as Hlog.
    rewrite Hb in *. cbn [fst snd] in *.
    rewrite E in Hlog. injection Hlog as ->.
    split; [reflexivity|]. split; [reflexivity|]. exact (Hfail e eq_refl).
  - intros s1 Hb.
    pose proof (analyze_transaction_success hex web3 tx tr s1 Hb) as Hok.
    rewrite Hb in *. cbn [fst snd] in *.
    rewrite E in Hok. injection Hok as ->. auto.
Qed.

Lemma analyze_transaction_never_raises_keeps_found_witness :
  exists ts s',
    analyze_transaction bytes_hex Sample.w_malformed Sample.tx1 (fresh []) = (Ret ts, s') /\
    ts = [Sample.the_threat;
          {| type := "failed_transaction";
             description := "Failed transaction detected: ab01" |}] /\
    List.filter is_error_log (a_trace s') =
      [EvLog Error "Error analyzing transaction: {}"
         [VStr "'>' not supported between instances of 'str' and 'int'"]].
Proof.
  destruct (analyze_transaction_never_raises_keeps_found
              bytes_hex Sample.w_malformed Sample.tx1 [])
    as (ts & s' & E & _ & Hfail & _).
  exists ts, s'. split; [exact E|].
  destruct (Hfail
    (Exn TypeError "'>' not supported between instances of 'str' and 'int'")
    (analyze_body bytes_hex Sample.w_malformed Sample.tx1 (fresh [])).2)
    as (Hts & Htr & _).
  - vm_compute. reflexivity.
  - split; [exact Hts|]. rewrite Htr. vm_compute. reflexivity.
Defined.

(** C3 as stated fails: a failure inside the evaluation does not make the
    transaction yield zero threats.  The receipt of a failed 15-ether
    transfer has a [gasUsed] that is no integer: the gas comparison raises
    after two threats were appended, and both are returned. *)
Lemma failure_does_not_clear_threats :
  ~ (forall (hex : list Byte.byte -> string) (web3 : Web3) (tx : dict) (e : exn) (s1 : AState),
       analyze_body hex web3 tx (fresh []) = (Exc e, s1) ->
       (analyze_transaction hex web3 tx (fresh [])).1 = Ret []).
Proof.
  intros H.
  specialize (H bytes_hex Sample.w_malformed Sample.tx1
    (Exn TypeError "'>' not supported between instances of 'str' and 'int'")
    (analyze_body bytes_hex Sample.w_malformed Sample.tx1 (fresh [])).2).
  vm_compute in H. specialize (H eq_refl). discriminate H.
Qed.

(** C6, as the code has it: on a transaction whose lookups succeed and
    whose value is an integer, so that the evaluation reaches the gas
    rule, a receipt with [gasUsed] above 1,000,000 gives a
    [high_gas_usage] threat whose description carries the gas value, and a
    receipt with [gasUsed] of 1,000,000 or less gives none. *)
Theorem high_gas_usage_strictly_above_million
    (hex : list Byte.byte -> string) (web3 : Web3) (tx : dict) (tr : list event)
    (h : string) (d r : dict) (v : Z) (eth : string) (g : Z) :
  py_hex hex (dict_get tx "transactionHash" (VStr "")) = Ok h ->
  str_truthy h = true ->
  get_transaction web3 h = Ok (Some d) ->
  dict_get d "value" (VInt 0) = VInt v ->
  from_wei web3 (VInt v) = Ok eth ->
  get_transaction_receipt web3 h = Ok (Some r) ->
  r !! "gasUsed" = Some (VInt g) ->
  exists ts s',
    analyze_transaction hex web3 tx (fresh tr) = (Ret ts, s') /\
    (1000000 < g ->
     {| type := "high_gas_usage";
        description := "High gas usage: " +:+ pretty g +:+ " gas" |} ∈ ts) /\
    (g <= 1000000 -> forall t, t ∈ ts -> type t <> "high_gas_usage").
Proof.
  intros Hh Ht Hd Hv Hw Hr Hg.
  destruct (analyze_transaction_eq hex web3 tx (fresh tr)) as [s' E].
  cbn [a_trace fresh] in E.
  pose proof (analyze_body_gas hex web3 tx tr h d r v eth g Hh Ht Hd Hv Hw Hr Hg) as Hgas.
  unfold wp in Hgas.
  eexists _, s'. split; [exact E|]. apply Hgas.
Qed.

Lemma high_gas_usage_strictly_above_million_witness :
  exists ts s',
    analyze_transaction bytes_hex (Sample.w_gas 1000001) Sample.tx1 (fresh []) = (Ret ts, s') /\
    (1000000 < 1000001 ->
     {| type := "high_gas_usage"; description := "High gas usage: 1000001 gas" |} ∈ ts) /\
    (1000001 <= 1000000 -> forall t, t ∈ ts -> type t <> "high_gas_usage").
Proof.
  apply (high_gas_usage_strictly_above_million bytes_hex (Sample.w_gas 1000001) Sample.tx1 []
           "ab01" Sample.details_no_value (Sample.receipt_gas 1000001) 0 "0" 1000001);
    vm_compute; reflexivity.
Defined.

(** C6 as stated fails: a receipt whose [gasUsed] exceeds 1,000,000 does
    not by itself give the threat.  The endpoint has the receipt, with
    2,000,000 gas used, but not the transaction details: the evaluation
    fails on the details before it reaches the gas rule, and no threat is
    returned. *)
Lemma receipt_alone_does_not_give_gas_threat :
  ~ (forall (hex : list Byte.byte -> string) (web3 : Web3) (tx : dict)
       (h : string) (r : dict) (g : Z),
       py_hex hex (dict_get tx "transactionHash" (VStr "")) = Ok h ->
       get_transaction_receipt web3 h = Ok (Some r) ->
       r !! "gasUsed" = Some (VInt g) ->
       1000000 < g ->
       exists ts s',
         analyze_transaction hex web3 tx (fresh []) = (Ret ts, s') /\
         exists t, t ∈ ts /\ type t = "high_gas_usage").
Proof.
  intros H.
  destruct (H bytes_hex Sample.w_no_details Sample.tx1 "ab01"
              (Sample.receipt_gas 2000000) 2000000)
    as (ts & s' & E & t & Hin & _); try (vm_compute; reflexivity).
  vm_compute in E. injection E as <- _.
  apply elem_of_nil in Hin. exact Hin.
Qed.

(** Without a receipt a transfer of 15 ether yields the value threat only,
    and no error is logged. *)
Example missing_receipt_value_rule_only :
  (analyze_transaction bytes_hex Sample.w_no_receipt Sample.tx1 (fresh [])).1 =
    Ret [Sample.the_threat] /\
  List.filter is_error_log
    (a_trace (analyze_transaction bytes_hex Sample.w_no_receipt Sample.tx1 (fresh [])).2) = [].
Proof. split; vm_compute; reflexivity. Qed.

(** At exactly 1,000,000 the rule is silent, one above it fires. *)
Example gas_boundary :
  (analyze_transaction bytes_hex (Sample.w_gas 1000000) Sample.tx1 (fresh [])).1 = Ret [] /\
  (analyze_transaction bytes_hex (Sample.w_gas 1000001) Sample.tx1 (fresh [])).1 =
    Ret [{| type := "high_gas_usage"; description := "High gas usage: 1000001 gas" |}].
Proof. split; vm_compute; reflexivity. Qed.

(** ** Fetching the transactions of a window *)

(** C10: when the first log query succeeds and the second raises
    [BlockNotFound], the fetch returns the empty list: what the first query
    returned is dropped, and a warning is logged. *)
Theorem second_query_unavailable_discards_first
    (web3 : Web3) (addr : string) (from_block to_block : Z)
    (l : list dict) (e : exn) (s : State) :
  get_logs web3 (recipient_filter addr from_block to_block) = Ok l ->
  get_logs web3 (sender_filter addr from_block to_block) = Raise e ->
  is_block_not_found e = true ->
  get_contract_transactions web3 addr from_block to_block s =
    (Ret [],
     set_trace
       (trace s ++
        [EvGetLogs (recipient_filter addr from_block to_block);
         EvGetLogs (sender_filter addr from_block to_block);
         EvLog Warning "Block range {}-{} not available, adjusting range"
           [VInt from_block; VInt to_block]]) s).
Proof.
  unfold recipient_filter, sender_filter. intros H1 H2 He.
  cut (wp (get_contract_transactions web3 addr from_block to_block) s
         (fun o s' => o = Ret [] /\
            s' = set_trace
              (trace s ++
               [EvGetLogs {| fromBlock := from_block; toBlock := to_block; topics := None;
                             filter_address := addr |};
                EvGetLogs {| fromBlock := from_block; toBlock := to_block;
                             topics := Some [VNone]; filter_address := addr |};
                EvLog Warning "Block range {}-{} not available, adjusting range"
                  [VInt from_block; VInt to_block]]) s)).
  { intros H. apply wp_run in H. destruct H as (s' & E & ->). exact E. }
  repeat wp_basic. split; [reflexivity | trace_eq].
Qed.

Lemma second_query_unavailable_discards_first_witness :
  get_contract_transactions Sample.w_unavailable "0xAbC" 900 1000 (init Sample.db0) =
    (Ret [],
     set_trace
       (trace (init Sample.db0) ++
        [EvGetLogs (recipient_filter "0xAbC" 900 1000);
         EvGetLogs (sender_filter "0xAbC" 900 1000);
         EvLog Warning "Block range {}-{} not available, adjusting range"
           [VInt 900; VInt 1000]]) (init Sample.db0)).
Proof.
  apply (second_query_unavailable_discards_first Sample.w_unavailable "0xAbC" 900 1000
           [Sample.tx1] (Exn BlockNotFound "block not found")); reflexivity.
Defined.

Section IterationClaims.

Variable hex : list Byte.byte -> string.
Variable env : Env.
Variable contract_id : Z.

(** C5: when a log query of the window fails with [BlockNotFound], the
    fetch returns the empty list and logs a warning instead of raising, the
    iteration ends normally without an error line, reports that there are no
    new transactions, leaves the database alone and stores the current
    height as the cursor. *)
Theorem unavailable_range_scan_completes (s : State) (c : Contract) (url addr : string)
    (cur : Z) :
  reaches_scan env s contract_id c url addr cur ->
  reaches_fetch (connect env url) addr ->
  range_unavailable (connect env url) addr (window_start s contract_id cur) cur ->
  (forall s0, exists evs,
     get_contract_transactions (connect env url) addr (window_start s contract_id cur) cur s0 =
       (Ret [], set_trace (trace s0 ++ evs) s0) /\
     List.filter is_error_log evs = [] /\
     In (EvLog Warning "Block range {}-{} not available, adjusting range"
           [VInt (window_start s contract_id cur); VInt cur]) evs) /\
  exists s',
    monitor_iteration hex env contract_id s = (Ret tt, s') /\
    last_processed_block s' = <[contract_id := cur]> (last_processed_block s) /\
    db s' = db s /\
    List.filter is_error_log (trace s') = List.filter is_error_log (trace s) /\
    In (EvLog Info "No new transactions found for contract {}" [VStr addr]) (trace s').
Proof.
  intros Hscan Hfetch Hun. split.
  - intros s0. destruct (fetch_range_unavailable _ _ _ _ s0 Hun) as (evs & E & _ & H1 & H2).
    eauto.
  - exact (unavailable_iteration hex env contract_id s c url addr cur Hscan Hfetch Hun).
Qed.

(** C7: an iteration in which no threat is found, whatever window it
    scans and whether or not there are transactions in it, leaves the
    database as it was, so [status], [threat_level] and the alert rows are
    unchanged, and neither assigns a field, nor adds a row, nor commits. *)
Theorem no_threats_no_writes (s : State) :
  (forall c url addr cur txs,
     reaches_scan env s contract_id c url addr cur ->
     window_yields (connect env url) addr (window_start s contract_id cur) cur txs ->
     found_threats hex (connect env url) txs = []) ->
  exists o s',
    monitor_iteration hex env contract_id s = (o, s') /\
    contracts (db s') = contracts (db s) /\
    alerts (db s') = alerts (db s) /\
    exists evs, trace s' = trace s ++ evs /\ List.filter is_write evs = [].
Proof.
  intros Hnone.
  pose proof (monitor_iteration_writes hex env contract_id s) as Hw. unfold wp in Hw.
  destruct (monitor_iteration hex env contract_id s) as [o s']. cbn [fst snd] in Hw.
  exists o, s'. split; [reflexivity|].
  destruct Hw as [[Hdb Hevs] | (c & url & addr & cur & txs & Hscan & Hyield & Hsome)].
  - rewrite Hdb. auto.
  - destruct (Hsome (Hnone c url addr cur txs Hscan Hyield)).
Qed.

(** C2: when the transactions of the window yield at least one threat,
    [status] and [threat_level] are each assigned once, to "Warning" and
    "Medium", one alert row is created per threat, in order, and with a
    successful commit the database holds the changed row and the new
    alerts. *)
Theorem threats_set_warning_once_and_one_alert_each (s : State) (c : Contract)
    (url addr : string) (cur : Z) (txs : list dict) :
  reaches_scan env s contract_id c url addr cur ->
  reaches_fetch (connect env url) addr ->
  window_yields (connect env url) addr (window_start s contract_id cur) cur txs ->
  list_truthy (found_threats hex (connect env url) txs) = true ->
  exists s',
    monitor_iteration hex env contract_id s = (Ret tt, s') /\
    List.filter is_set_attr (trace s') =
      List.filter is_set_attr (trace s) ++
      [EvSetAttr contract_id "status" "Warning";
       EvSetAttr contract_id "threat_level" "Medium"] /\
    List.filter is_add (trace s') =
      List.filter is_add (trace s) ++
      map (fun t => EvAdd (alert_of contract_id t))
        (found_threats hex (connect env url) txs) /\
    length (List.filter is_add (trace s')) =
      (length (List.filter is_add (trace s)) +
       length (found_threats hex (connect env url) txs))%nat /\
    (db_commit env = Ok tt ->
     contracts (db s') !! contract_id = Some (warned c) /\
     status (warned c) = "Warning" /\ threat_level (warned c) = "Medium" /\
     alerts (db s') =
       alerts (db s) ++
       map (alert_of contract_id) (found_threats hex (connect env url) txs)).
Proof.
  intros Hscan Hfetch Hw Hsome.
  assert (Hne : found_threats hex (connect env url) txs <> []).
  { intros Hnil. rewrite Hnil in Hsome. discriminate Hsome. }
  destruct (alerting_iteration hex env contract_id s c url addr cur txs Hscan Hfetch Hw Hne)
    as (s' & E & Hattr & Hadd & Hok & _).
  exists s'. split_and!; try assumption.
  - rewrite Hadd, length_app, length_map. reflexivity.
  - intros Hc. destruct (Hok Hc) as (Hcs & Hal & _).
    rewrite Hcs, lookup_insert_eq. auto.
Qed.

(** C8: with no code at the contract's address the iteration logs an error
    and ends by [continue]: the cursor, the database and the registry are
    as before, nothing is pending, no sleep is performed, and the loop goes
    straight on to its next iteration. *)
Theorem no_code_continues_without_sleep (s : State) (c : Contract) (url addr : string)
    (cur : Z) :
  reaches_scan env s contract_id c url addr cur ->
  get_code (connect env url) addr = Ok [] ->
  exists s',
    monitor_iteration hex env contract_id s = (Cont, s') /\
    last_processed_block s' = last_processed_block s /\
    db s' = db s /\
    session s' = empty_session /\
    In (EvLog Error "No contract code found at address {}" [VStr addr]) (trace s') /\
    List.filter is_sleep (trace s') = List.filter is_sleep (trace s) /\
    forall rest,
      while_true hex (env :: rest) contract_id s = while_true hex rest contract_id s'.
Proof.
  intros Hscan Hcode.
  destruct (no_code_iteration hex env contract_id s c url addr cur Hscan Hcode)
    as (s' & E & Hl & Hdb & Hses & _ & Htr).
  exists s'. split_and!; try assumption.
  - rewrite Htr, in_app_iff. cbn. auto 10.
  - rewrite Htr, List.filter_app. cbn. rewrite app_nil_r. reflexivity.
  - intros rest. cbn [while_true]. rewrite E. reflexivity.
Qed.

End IterationClaims.

Ltac sample_scan := repeat split; vm_compute; reflexivity.
Ltac sample_fetch := exists Sample.bytecode, 0, "0"; repeat split; vm_compute; reflexivity.

Lemma unavailable_range_scan_completes_witness :
  exists s',
    monitor_iteration bytes_hex (Sample.environment Sample.w_unavailable (Ok tt)) 1
      (init Sample.db0) = (Ret tt, s') /\
    last_processed_block s' = <[1 := 1000]> ∅ /\
    db s' = Sample.db0.
Proof.
  destruct (unavailable_range_scan_completes bytes_hex
              (Sample.environment Sample.w_unavailable (Ok tt)) 1 (init Sample.db0)
              Sample.c0 sample_url "0xAbC" 1000) as (_ & s' & E & Hl & Hdb & _).
  - sample_scan.
  - sample_fetch.
  - right. exists [Sample.tx1], (Exn BlockNotFound "block not found").
    repeat split; vm_compute; reflexivity.
  - exists s'. auto.
Defined.

Lemma no_threats_no_writes_witness :
  exists o s',
    monitor_iteration bytes_hex (Sample.environment Sample.w_quiet (Ok tt)) 1
      (init Sample.db0) = (o, s') /\
    contracts (db s') = contracts Sample.db0 /\
    alerts (db s') = [].
Proof.
  destruct (no_threats_no_writes bytes_hex (Sample.environment Sample.w_quiet (Ok tt)) 1
              (init Sample.db0)) as (o & s' & E & Hc & Ha & _).
  - intros c url addr cur txs (_ & Hc & Hu & _ & Ha & Hh) Hw.
    change (Some Sample.c0 = Some c) in Hc. injection Hc as <-.
    assert (Hurl : providers (Sample.environment Sample.w_quiet (Ok tt)) !! "base" =
                   Some sample_url) by (vm_compute; reflexivity).
    change (network Sample.c0) with "base" in Hu. rewrite Hurl in Hu. injection Hu as <-.
    change (Ok "0xAbC" = Ok addr) in Ha. injection Ha as <-.
    change (Ok 1000 = Ok cur) in Hh. injection Hh as <-.
    destruct Hw as [(l1 & l2 & H1 & H2 & ->) | [[(e & H1 & _) | (l & e & _ & H2 & _)] ->]].
    + change (Ok [Sample.tx1] = Ok l1) in H1. injection H1 as <-.
      change (Ok (@nil dict) = Ok l2) in H2. injection H2 as <-.
      vm_compute. reflexivity.
    + change (Ok [Sample.tx1] = Raise e) in H1. discriminate H1.
    + change (Ok (@nil dict) = Raise e) in H2. discriminate H2.
  - exists o, s'. auto.
Defined.

Lemma threats_set_warning_once_and_one_alert_each_witness :
  exists s',
    monitor_iteration bytes_hex (Sample.environment (Sample.w_transfer 1000) (Ok tt)) 1
      (init Sample.db0) = (Ret tt, s') /\
    contracts (db s') !! 1 = Some (warned Sample.c0) /\
    alerts (db s') = [alert_of 1 Sample.the_threat].
Proof.
  destruct (threats_set_warning_once_and_one_alert_each bytes_hex
              (Sample.environment (Sample.w_transfer 1000) (Ok tt)) 1
              (init Sample.db0) Sample.c0 sample_url "0xAbC" 1000 [Sample.tx1])
    as (s' & E & _ & _ & _ & Hok).
  - sample_scan.
  - sample_fetch.
  - left. exists [Sample.tx1], []. repeat split; vm_compute; reflexivity.
  - vm_compute. reflexivity.
  - exists s'. destruct (Hok eq_refl) as (Hc & _ & _ & Hal). auto.
Defined.

Lemma no_code_continues_without_sleep_witness :
  exists s',
    monitor_iteration bytes_hex (Sample.environment Sample.w_no_code (Ok tt)) 1
      (init Sample.db0) = (Cont, s') /\
    last_processed_block s' = ∅ /\
    List.filter is_sleep (trace s') = [].
Proof.
  destruct (no_code_continues_without_sleep bytes_hex
              (Sample.environment Sample.w_no_code (Ok tt)) 1 (init Sample.db0)
              Sample.c0 sample_url "0xAbC" 1000) as (s' & E & Hl & _ & _ & _ & Hs & _).
  - sample_scan.
  - vm_compute. reflexivity.
  - exists s'. auto.
Defined.

(** ** The order of persisting and notifying *)

(** C1, as the code has it: in the alerting block the changed contract row
    and the alert rows are pending in the session, not committed, when the
    dispatcher is called; the dispatcher never fails and leaves database and
    session alone; the commit comes after it.  The commit is all or
    nothing: when it succeeds the row and every alert are written together,
    when it fails the database is as before the scan. *)
Theorem alerts_pending_when_notified_committed_after
    (env : Env) (contract_id : Z) (c : Contract) (ts : list Threat) (s : State) :
  exists s_d,
    send_notifications env contract_id (warned c) ts (staged contract_id c ts s) =
      (Ret tt, s_d) /\
    raise_alerts env contract_id c ts s =
      (commit env ;;; log Info "All alerts and notifications processed" []) s_d /\
    db (staged contract_id c ts s) = db s /\
    session (staged contract_id c ts s) = staged_session contract_id c ts (session s) /\
    db s_d = db s /\
    session s_d = staged_session contract_id c ts (session s) /\
    List.filter is_commit (trace s_d) = List.filter is_commit (trace s) /\
    (db_commit env = Ok tt ->
     exists s', raise_alerts env contract_id c ts s = (Ret tt, s') /\
       db s' = apply_session (staged_session contract_id c ts (session s)) (db s) /\
       session s' = empty_session) /\
    (forall e, db_commit env = Raise e ->
     exists s', raise_alerts env contract_id c ts s = (Exc e, s') /\ db s' = db s).
Proof.
  destruct (send_notifications_spec env contract_id (warned c) ts (staged contract_id c ts s))
    as (evs & E & Hevs & _).
  eexists. split; [exact E|].
  assert (Hra : raise_alerts env contract_id c ts s =
    (commit env ;;; log Info "All alerts and notifications processed" [])
      (set_trace (trace (staged contract_id c ts s) ++ evs) (staged contract_id c ts s))).
  { rewrite raise_alerts_eq. rewrite (bind_eq _ _ _ _ _ E). reflexivity. }
  split; [exact Hra|].
  split_and!; try reflexivity.
  - state_simpl. rewrite !List.filter_app.
    rewrite (filter_staging_other is_commit) by (intros []; cbn; intros; congruence).
    rewrite (filter_none is_log_or_email is_commit evs Hevs) by other_class.
    rewrite !app_nil_r. reflexivity.
  - intros Hok. rewrite Hra, (commit_ok env _ Hok). eexists. split; [reflexivity|].
    split; reflexivity.
  - intros e He. rewrite Hra, (commit_raises env _ e He). eexists. split; reflexivity.
Qed.

Lemma alerts_pending_when_notified_committed_after_witness :
  exists s',
    raise_alerts (Sample.environment (Sample.w_transfer 1000) (Raise Sample.commit_error)) 1
      Sample.c0 [Sample.the_threat] (init Sample.db0) = (Exc Sample.commit_error, s') /\
    db s' = Sample.db0.
Proof.
  destruct (alerts_pending_when_notified_committed_after
              (Sample.environment (Sample.w_transfer 1000) (Raise Sample.commit_error)) 1
              Sample.c0 [Sample.the_threat] (init Sample.db0))
    as (s_d & _ & _ & _ & _ & _ & _ & _ & _ & Hfail).
  exact (Hfail Sample.commit_error eq_refl).
Defined.

(** C1 as stated fails: the dispatcher runs before the commit.  In a scan
    that finds one threat the subscriber is mailed before anything is
    committed. *)
Lemma notification_precedes_commit :
  ~ (forall (hex : list Byte.byte -> string) (env : Env) (contract_id : Z) (s : State),
       mailed_after_commit false
         (drop (length (trace s)) (trace (monitor_iteration hex env contract_id s).2)) = true).
Proof.
  intros H.
  specialize (H bytes_hex (Sample.environment (Sample.w_transfer 1000) (Ok tt)) 1
                (init Sample.db0)).
  vm_compute in H. discriminate H.
Qed.

(** The same scan with a failing commit: the subscriber is mailed about an
    alert that is never persisted, and the status stays as it was; with a
    working commit the mail precedes the commit. *)
Example mailed_but_not_persisted :
  let failing := Sample.environment (Sample.w_transfer 1000) (Raise Sample.commit_error) in
  let working := Sample.environment (Sample.w_transfer 1000) (Ok tt) in
  let s_f := (monitor_iteration bytes_hex failing 1 (init Sample.db0)).2 in
  let s_w := (monitor_iteration bytes_hex working 1 (init Sample.db0)).2 in
  let mail := email_event (warned Sample.c0) [Sample.the_threat]
                {| email_contract_id := 1; email := "ops@example.org" |} in
  List.filter is_email (trace s_f) = [mail] /\
  alerts (db s_f) = [] /\
  contracts (db s_f) !! 1 = Some Sample.c0 /\
  List.filter (fun e => is_email e || is_commit e) (trace s_w) = [mail; EvCommit true].
Proof. vm_compute. repeat split. Qed.

(** ** The supervisor *)

(** C9: two calls of [start_monitoring] in a row for one contract id leave
    one registered thread.  The second call only logs a warning; a first
    call for an unregistered id starts exactly one thread, and a call for a
    registered id starts none, whether or not the registered thread is
    alive. *)
Theorem start_monitoring_idempotent (contract_id : Z) (s : State) :
  exists s1 s2,
    start_monitoring contract_id s = (Ret tt, s1) /\
    start_monitoring contract_id s1 = (Ret tt, s2) /\
    is_Some (monitors s1 !! contract_id) /\
    monitors s2 = monitors s1 /\
    trace s2 =
      trace s1 ++ [EvLog Warning "Monitor already exists for contract {}" [VInt contract_id]] /\
    (monitors s !! contract_id = None ->
     monitors s1 = <[contract_id := monitor_thread contract_id]> (monitors s) /\
     List.filter is_spawn (trace s2) =
       List.filter is_spawn (trace s) ++ [EvSpawn (monitor_thread contract_id)]) /\
    (forall t, monitors s !! contract_id = Some t ->
     monitors s1 = monitors s /\
     List.filter is_spawn (trace s2) = List.filter is_spawn (trace s)).
Proof.
  unfold start_monitoring, log, emit. rewrite !bind_gets.
  destruct (monitors s !! contract_id) as [t|] eqn:Hm.
  - eexists _, _. split; [reflexivity|]. rewrite bind_gets. state_simpl. rewrite Hm.
    split; [reflexivity|]. state_simpl.
    split_and!; try reflexivity; try discriminate; eauto.
    intros t' _. split; [reflexivity|]. rewrite !List.filter_app. cbn. rewrite !app_nil_r.
    reflexivity.
  - eexists _, _. rewrite !bind_modify. split; [reflexivity|]. rewrite bind_gets.
    state_simpl. rewrite lookup_insert_eq.
    split; [reflexivity|]. state_simpl.
    split_and!; try reflexivity; try discriminate; eauto.
    intros _. split; [reflexivity|]. rewrite !List.filter_app. cbn. rewrite !app_nil_r.
    reflexivity.
Qed.

Lemma start_monitoring_idempotent_witness :
  exists s1 s2,
    start_monitoring 7 (init Sample.db0) = (Ret tt, s1) /\
    start_monitoring 7 s1 = (Ret tt, s2) /\
    monitors s2 = {[ 7 := monitor_thread 7 ]} /\
    List.filter is_spawn (trace s2) = [EvSpawn (monitor_thread 7)].
Proof.
  destruct (start_monitoring_idempotent 7 (init Sample.db0))
    as (s1 & s2 & E1 & E2 & _ & Hsame & _ & Hnew & _).
  destruct (Hnew eq_refl) as [Hm Hs].
  exists s1, s2. split_and!; try assumption.
  rewrite Hsame, Hm. reflexivity.
Defined.

(** A registered thread that is dead is not replaced. *)
Example dead_thread_not_restarted :
  let dead := {| thread_target := 7; thread_name := "contract-monitor-7";
                 thread_daemon := true; thread_alive := false |} in
  let s := set_monitors {[ 7 := dead ]} (init Sample.db0) in
  let s1 := (start_monitoring 7 s).2 in
  monitors s1 !! 7 = Some dead /\ List.filter is_spawn (trace s1) = [].
Proof. vm_compute. split; reflexivity. Qed.

(** ** The block cursor *)




(** ** A scenario of the specification *)

(** A contract checked every five minutes, one transaction of 15 ether with
    a successful receipt and 50,000 gas: one alert of type
    [high_value_transfer], status "Warning", threat level "Medium", cursor at
    the current height and a sleep of 300 seconds. *)
Example five_minute_scenario :
  let s' := (monitor_iteration bytes_hex
               (Sample.environment (Sample.w_transfer 1000) (Ok tt)) 1 (init Sample.db0)).2 in
  alerts (db s') = [alert_of 1 Sample.the_threat] /\
  contracts (db s') !! 1 = Some (warned Sample.c0) /\
  last_processed_block s' !! 1 = Some 1000 /\
  List.filter is_sleep (trace s') = [EvSleep 300].
Proof. vm_compute. repeat split. Qed.

(** * Further properties of the code *)

(** ** The frequency table and the endpoints *)

(** X1: [get_sleep_time] gives the seconds of the table for each of the
    five known frequencies, 60, 300, 900, 1800 and 3600, and 300 for every
    other string, so it always lies between one minute and one hour. *)
Theorem get_sleep_time_table (frequency : string) :
  get_sleep_time "1min" = 60 /\
  get_sleep_time "5min" = 300 /\
  get_sleep_time "15min" = 900 /\
  get_sleep_time "30min" = 1800 /\
  get_sleep_time "1hour" = 3600 /\
  (frequency ∉ ["1min"; "5min"; "15min"; "30min"; "1hour"] ->
   get_sleep_time frequency = 300) /\
  60 <= get_sleep_time frequency <= 3600 /\
  (get_sleep_time frequency <> 300 ->
   (frequency = "1min" /\ get_sleep_time frequency = 60) \/
   (frequency = "15min" /\ get_sleep_time frequency = 900) \/
   (frequency = "30min" /\ get_sleep_time frequency = 1800) \/
   (frequency = "1hour" /\ get_sleep_time frequency = 3600)).
Proof.
  do 5 (split; [vm_compute; reflexivity|]).
  unfold get_sleep_time.
  rewrite !lookup_insert, lookup_singleton.
  repeat case_decide; subst; split_and!; try lia; try reflexivity; try congruence;
    intros Hf; try (exfalso; apply Hf; set_solver); auto 10.
Qed.

(** X2: [get_web3] fails only with a [ValueError] and then leaves the state
    alone.  It rejects every network other than the three of the table.
    Each of the three has its own environment variable and its own default
    endpoint: the endpoint is the value of the variable when it is set and
    the default when it is not; an empty endpoint gives the
    "No RPC URL configured" error, any other is connected to and logged. *)
Theorem get_web3_configuration (env : Env) (network : string) (s : State) :
  (forall e s', get_web3 env network s = (Exc e, s') ->
     exn_class_of e = ValueError /\ s' = s) /\
  (network ∉ ["ethereum"; "base"; "base-sepolia"] ->
   get_web3 env network s =
     (Exc (Exn ValueError ("Unsupported network: " +:+ network)), s)) /\
  (forall variable default,
     (network, variable, default) ∈
       [("ethereum", "ETH_RPC_URL", "https://eth-mainnet.g.alchemy.com/v2/api-key");
        ("base", "BASE_RPC_URL", "https://mainnet.base.org");
        ("base-sepolia", "BASE_SEPOLIA_RPC_URL", "https://sepolia.base.org")] ->
     str_truthy default = true /\
     forall url,
       url = match getenv env variable with Some v => v | None => default end ->
       get_web3 env network s =
         if str_truthy url
         then (Ret (connect env url),
               add_event (EvLog Info "Connecting to {} network at {}"
                            [VStr network; VStr url]) s)
         else (Exc (Exn ValueError ("No RPC URL configured for network: " +:+ network)), s)).
Proof.
  split_and!.
  - unfold get_web3. destruct (providers env !! network) as [url|]; cbn.
    + destruct (str_truthy url); cbn; intros e s' [= <- <-]; auto.
    + intros e s' [= <- <-]. auto.
  - intros Hn. unfold get_web3, providers.
    rewrite !lookup_insert_ne, lookup_singleton_ne by set_solver. reflexivity.
  - intros variable default Hn.
    apply elem_of_cons in Hn as [[= -> -> ->] | Hn];
      [|apply elem_of_cons in Hn as [[= -> -> ->] | Hn];
        [|apply list_elem_of_singleton in Hn as [= -> -> ->]]].
    all: split; [reflexivity|]; intros url ->.
    all: unfold get_web3, providers, getenv_default.
    all: rewrite !lookup_insert, ?lookup_singleton; repeat case_decide; try congruence.
    all: match goal with
         | |- context [str_truthy ?u] => destruct (str_truthy u); reflexivity
         end.
Qed.

(** ** Fetching: failures other than an unavailable range *)

(** X3: an exception of the log queries that is not [BlockNotFound] is not
    swallowed by [get_contract_transactions]: it propagates, and when the
    first query raises it the second query is not made. *)
Theorem fetch_propagates_other_errors
    (web3 : Web3) (addr : string) (from_block to_block : Z) (e : exn) (s : State) :
  is_block_not_found e = false ->
  (get_logs web3 (recipient_filter addr from_block to_block) = Raise e ->
   get_contract_transactions web3 addr from_block to_block s =
     (Exc e, add_event (EvGetLogs (recipient_filter addr from_block to_block)) s)) /\
  (forall l,
   get_logs web3 (recipient_filter addr from_block to_block) = Ok l ->
   get_logs web3 (sender_filter addr from_block to_block) = Raise e ->
   get_contract_transactions web3 addr from_block to_block s =
     (Exc e,
      add_event (EvGetLogs (sender_filter addr from_block to_block))
        (add_event (EvGetLogs (recipient_filter addr from_block to_block)) s))).
Proof.
  unfold recipient_filter, sender_filter. intros He. split.
  - intros H1.
    unfold get_contract_transactions, try_except_if, eth_get_logs, emit.
    rewrite bind_assoc, bind_modify, H1. cbn. rewrite He. reflexivity.
  - intros l H1 H2.
    unfold get_contract_transactions, try_except_if, eth_get_logs, emit.
    rewrite bind_assoc, bind_modify, H1. cbn [lift]. rewrite bind_ret.
    rewrite bind_assoc, bind_modify, H2. cbn. rewrite He. reflexivity.
Qed.

Lemma fetch_propagates_other_errors_witness :
  get_contract_transactions
    (Sample.client 1000 Sample.bytecode
       (fun _ => Raise (Exn OtherException "connection reset")) None None)
    "0xAbC" 900 1000 (init Sample.db0) =
  (Exc (Exn OtherException "connection reset"),
   add_event (EvGetLogs (recipient_filter "0xAbC" 900 1000)) (init Sample.db0)).
Proof.
  refine (proj1 (fetch_propagates_other_errors
    (Sample.client 1000 Sample.bytecode
       (fun _ => Raise (Exn OtherException "connection reset")) None None)
    "0xAbC" 900 1000 (Exn OtherException "connection reset") (init Sample.db0) _) _);
    reflexivity.
Defined.

(** ** The three rules *)

Section Rules3.

Variable hex : list Byte.byte -> string.
Variable web3 : Web3.
Variable tx : dict.

Lemma analyze_body_rules tr h d r v eth g :
  py_hex hex (dict_get tx "transactionHash" (VStr "")) = Ok h ->
  str_truthy h = true ->
  get_transaction web3 h = Ok (Some d) ->
  dict_get d "value" (VInt 0) = VInt v ->
  from_wei web3 (VInt v) = Ok eth ->
  get_transaction_receipt web3 h = Ok (Some r) ->
  r !! "gasUsed" = Some (VInt g) ->
  wp (analyze_body hex web3 tx) (fresh tr) (fun o s' =>
    o = Ret tt /\
    threats s' =
      (if to_wei_ether 10 <? v then [value_threat eth] else []) ++
      (if py_eq_int (dict_get r "status" VNone) 0 then [failed_threat h] else []) ++
      (if 1000000 <? g then [gas_threat g] else [])).
Proof.
  intros Hh Ht Hd Hv Hw Hr Hg.
  assert (Hgas : receipt_high_gas (Some r) = Ok (1000000 <? g)).
  { cbn. rewrite (dict_truthy_lookup _ _ _ Hg). unfold dict_get. rewrite Hg. reflexivity. }
  assert (Hfailed : receipt_failed (Some r) = py_eq_int (dict_get r "status" VNone) 0).
  { cbn. rewrite (dict_truthy_lookup _ _ _ Hg). reflexivity. }
  assert (Hidx : obj_index (Some r) "gasUsed" = Ok (VInt g)).
  { cbn. unfold dict_index. rewrite Hg. reflexivity. }
  assert (Hget : obj_get (Some d) "value" (VInt 0) = Ok (VInt v)).
  { cbn. rewrite Hv. reflexivity. }
  assert (Hval : (to_wei_ether 10 <? v) = true ->
            obj_index (Some d) "value" = Ok (VInt v)).
  { cbn. intros Hb. unfold dict_index, dict_get in *.
    destruct (d !! "value"); [congruence|].
    injection Hv as <-. vm_compute in Hb. discriminate. }
  assert (Hgt : py_gt (VInt v) (to_wei_ether 10) = Ok (to_wei_ether 10 <? v))
    by reflexivity.
  unfold analyze_body.
  destruct (to_wei_ether 10 <? v) eqn:Ehv; [specialize (Hval eq_refl)|clear Hval];
    destruct (py_eq_int (dict_get r "status" VNone) 0) eqn:Est;
    destruct (1000000 <? g) eqn:Ehg;
    repeat wp_prim; asimpl; split; reflexivity.
Qed.

End Rules3.

(** X4: on a transaction whose lookups succeed, whose value is an integer
    and whose receipt has an integer [gasUsed], the three rules are
    independent: the result holds the value threat exactly when the value is
    above 10 ether (not at 10 ether), then the failure threat exactly when
    the receipt's status equals 0, then the gas threat exactly when the gas
    is above 1,000,000, and nothing else. *)
Theorem rules_fire_independently_in_order
    (hex : list Byte.byte -> string) (web3 : Web3) (tx : dict) (tr : list event)
    (h : string) (d r : dict) (v : Z) (eth : string) (g : Z) :
  py_hex hex (dict_get tx "transactionHash" (VStr "")) = Ok h ->
  str_truthy h = true ->
  get_transaction web3 h = Ok (Some d) ->
  dict_get d "value" (VInt 0) = VInt v ->
  from_wei web3 (VInt v) = Ok eth ->
  get_transaction_receipt web3 h = Ok (Some r) ->
  r !! "gasUsed" = Some (VInt g) ->
  exists s',
    analyze_transaction hex web3 tx (fresh tr) =
      (Ret ((if 10 * 10 ^ 18 <? v then [value_threat eth] else []) ++
            (if py_eq_int (dict_get r "status" VNone) 0 then [failed_threat h] else []) ++
            (if 1000000 <? g then [gas_threat g] else [])),
       s').
Proof.
  intros Hh Ht Hd Hv Hw Hr Hg.
  destruct (analyze_transaction_eq hex web3 tx (fresh tr)) as [s' E].
  cbn [a_trace fresh] in E.
  pose proof (analyze_body_rules hex web3 tx tr h d r v eth g Hh Ht Hd Hv Hw Hr Hg) as Hb.
  unfold wp in Hb. destruct Hb as [_ Hts].
  exists s'. rewrite E, Hts. reflexivity.
Qed.

Lemma rules_fire_independently_in_order_witness :
  exists s',
    analyze_transaction bytes_hex More.w_all_rules Sample.tx1 (fresh []) =
      (Ret [value_threat "15"; failed_threat "ab01"; gas_threat 1500000], s').
Proof.
  apply (rules_fire_independently_in_order bytes_hex More.w_all_rules Sample.tx1 [] "ab01"
           Sample.details_15_eth More.receipt_failed_heavy (15 * 10 ^ 18) "15" 1500000);
    vm_compute; reflexivity.
Defined.

(** A transfer of exactly 10 ether does not trip the value rule. *)
Example value_boundary :
  (analyze_transaction bytes_hex
     (Sample.client 1000 Sample.bytecode (Sample.logs_found [Sample.tx1])
        (Some {[ "value" := VInt (10 * 10 ^ 18) ]}) (Some Sample.receipt_fine))
     Sample.tx1 (fresh [])).1 = Ret [].
Proof. vm_compute. reflexivity. Qed.

Section RuleOrder.

Variable hex : list Byte.byte -> string.
Variable web3 : Web3.
Variable tx : dict.

Lemma analyze_body_order tr :
  wp (analyze_body hex web3 tx) (fresh tr) (fun _ s' =>
    sublist (map type (threats s')) rule_order).
Proof.
  unfold analyze_body.
  repeat wp_prim; asimpl; unfold rule_order; cbn [map app type];
    repeat first [apply sublist_nil | apply sublist_skip | apply sublist_cons].
Qed.

(** Without a usable transaction hash nothing is looked up: the body fails
    at once when the entry has no hash or the hash is not a bytes value, and
    does nothing when the hash renders as the empty text. *)
Lemma analyze_body_no_hash tr :
  (forall e, py_hex hex (dict_get tx "transactionHash" (VStr "")) = Raise e ->
     analyze_body hex web3 tx (fresh tr) = (Exc e, fresh tr)) /\
  (py_hex hex (dict_get tx "transactionHash" (VStr "")) = Ok "" ->
     analyze_body hex web3 tx (fresh tr) = (Ret tt, fresh tr)).
Proof.
  unfold analyze_body, bind. split.
  - intros e He. rewrite He. reflexivity.
  - intros He. rewrite He. reflexivity.
Qed.

End RuleOrder.

(** X5: whatever the transaction and the answers of the endpoint, the result
    of [analyze_transaction] holds at most one threat of each type, in the
    order value, failure, gas. *)
Theorem at_most_one_threat_per_rule
    (hex : list Byte.byte -> string) (web3 : Web3) (tx : dict) (tr : list event) :
  exists ts s',
    analyze_transaction hex web3 tx (fresh tr) = (Ret ts, s') /\
    sublist (map type ts) rule_order /\
    NoDup (map type ts) /\
    (length ts <= 3)%nat.
Proof.
  destruct (analyze_transaction_eq hex web3 tx (fresh tr)) as [s' E].
  cbn [a_trace fresh] in E.
  pose proof (analyze_body_order hex web3 tx tr) as Hsub. unfold wp in Hsub.
  eexists _, s'. split; [exact E|]. split; [exact Hsub|]. split.
  - eapply sublist_NoDup; [|exact Hsub].
    apply (bool_decide_unpack _). vm_compute. exact I.
  - apply sublist_length in Hsub. rewrite length_map in Hsub. exact Hsub.
Qed.

(** X6: a log entry that has no [transactionHash], or whose hash is not a
    bytes value, yields no threat and exactly one line, the error; an entry
    whose hash renders as the empty text yields no threat and no line at
    all. *)
Theorem unusable_hash_yields_nothing
    (hex : list Byte.byte -> string) (web3 : Web3) (tx : dict) :
  ((forall b, tx !! "transactionHash" <> Some (VBytes b)) ->
   exists e,
     analyze_transaction hex web3 tx (fresh []) =
       (Ret [],
        {| threats := [];
           a_trace := [EvLog Error "Error analyzing transaction: {}" [VStr (exn_str e)]] |}) /\
     exn_class_of e = AttributeError) /\
  (forall b, tx !! "transactionHash" = Some (VBytes b) -> hex b = "" ->
   analyze_transaction hex web3 tx (fresh []) = (Ret [], fresh [])).
Proof.
  split.
  - intros Hno.
    assert (exists e, py_hex hex (dict_get tx "transactionHash" (VStr "")) = Raise e /\
                      exn_class_of e = AttributeError) as (e & He & Hc).
    { unfold dict_get. destruct (tx !! "transactionHash") as [[| | |b]|] eqn:E; cbn; eauto.
      destruct (Hno b eq_refl). }
    exists e. split; [|exact Hc].
    unfold analyze_transaction, bind, try_except, set_threats, modify, gets, log, emit.
    change {| threats := []; a_trace := a_trace (fresh []) |} with (fresh []).
    rewrite (proj1 (analyze_body_no_hash hex web3 tx []) e He). reflexivity.
  - intros b Hb Hempty.
    assert (He : py_hex hex (dict_get tx "transactionHash" (VStr "")) = Ok "").
    { unfold dict_get. rewrite Hb. cbn. rewrite Hempty. reflexivity. }
    unfold analyze_transaction, bind, try_except, set_threats, modify, gets.
    change {| threats := []; a_trace := a_trace (fresh []) |} with (fresh []).
    rewrite (proj2 (analyze_body_no_hash hex web3 tx []) He). reflexivity.
Qed.

(** An entry without a hash and one whose hash is text: no threat, although
    the endpoint would report a transfer that trips all three rules. *)
Example entries_without_usable_hash :
  (analyze_transaction bytes_hex More.w_all_rules More.tx_no_hash (fresh [])).1 = Ret [] /\
  (analyze_transaction bytes_hex More.w_all_rules More.tx_text_hash (fresh [])).1 = Ret [].
Proof. split; vm_compute; reflexivity. Qed.

(** ** What every iteration keeps *)

Section Frame.

Variable hex : list Byte.byte -> string.
Variable env : Env.
Variable contract_id : Z.

Lemma monitor_iteration_frame s :
  wp (monitor_iteration hex env contract_id) s (iteration_frame env contract_id s).
Proof.
  unfold monitor_iteration.
  repeat wp_basic.
  all: unfold iteration_frame; state_simpl.
  all: split; [reflexivity|]; split; [reflexivity|].
  all: split;
    [ first [ left; reflexivity
            | right; eexists _, _; split_and!;
              [ eassumption
              | match goal with H : list_truthy _ = true |- _ <> [] =>
                  let Hnil := fresh in
                  intros Hnil; cbn [app] in H; rewrite Hnil in H; discriminate H
                end
              | repeat match goal with a : unit |- _ => destruct a end; eassumption
              | reflexivity ] ] | ].
  all: split; [first [discriminate | intros _; eassumption]|].
  all: split; [first [discriminate | intros _; eexists _, _, _, _; split_and!; eassumption]|].
  all: eexists; (split; [rewrite <- ?app_assoc; reflexivity|]).
  all: rewrite ?List.filter_app; cbn [List.filter is_sleep app]; drop_chunks;
    rewrite ?(filter_staging_other is_sleep) by (intros []; cbn; intros; congruence);
    cbn [app].
  all: first [ reflexivity | left; reflexivity | right; eexists; split; [eassumption|reflexivity] ].
Qed.

End Frame.

Lemma apply_staged_contracts contract_id c ts d k :
  contracts (apply_session (staged_session contract_id c ts empty_session) d) !! k =
  if decide (contract_id = k) then Some (warned c) else contracts d !! k.
Proof.
  cbn. rewrite insert_empty, <- insert_union_singleton_l. apply lookup_insert.
Qed.

Lemma alerts_of_contract contract_id ts :
  Forall (fun a => alert_contract_id a = contract_id) (map (alert_of contract_id) ts).
Proof. induction ts; constructor; auto. Qed.

(** X7: an iteration of the loop never lets an exception escape, whatever
    the database, the endpoint and the transport answer; it leaves no
    session open and does not touch the registry of monitors. *)
Theorem iteration_contains_every_failure
    (hex : list Byte.byte -> string) (env : Env) (contract_id : Z) (s : State) :
  exists o s',
    monitor_iteration hex env contract_id s = (o, s') /\
    (o = Ret tt \/ o = Brk \/ o = Cont) /\
    session s' = empty_session /\
    monitors s' = monitors s.
Proof.
  pose proof (monitor_iteration_frame hex env contract_id s) as Hf.
  pose proof (monitor_iteration_effect hex env contract_id s) as [Hexc _].
  unfold wp in Hf.
  destruct (monitor_iteration hex env contract_id s) as [o s']. cbn [fst snd] in *.
  destruct Hf as (Hses & Hmon & _).
  exists o, s'. split_and!; try assumption; try reflexivity.
  destruct o as [[]|e| |]; auto. destruct (Hexc e eq_refl).
Qed.

(** X8: an iteration for one contract changes nothing that belongs to
    another: the rows and cursors of other contracts and the subscriber
    table are as before.  Existing alerts are never changed or removed, new
    ones carry the id of the monitored contract, and of the monitored row
    only [status] and [threat_level] can change, to "Warning" and
    "Medium". *)
Theorem iteration_touches_only_its_contract
    (hex : list Byte.byte -> string) (env : Env) (contract_id : Z) (s : State) :
  let s' := (monitor_iteration hex env contract_id s).2 in
  alert_emails (db s') = alert_emails (db s) /\
  (exists new, alerts (db s') = alerts (db s) ++ new /\
     Forall (fun a => alert_contract_id a = contract_id) new) /\
  (forall k, k <> contract_id ->
     contracts (db s') !! k = contracts (db s) !! k /\
     last_processed_block s' !! k = last_processed_block s !! k) /\
  (contracts (db s') !! contract_id = contracts (db s) !! contract_id \/
   exists c, contracts (db s) !! contract_id = Some c /\
     contracts (db s') !! contract_id = Some (warned c)).
Proof.
  pose proof (monitor_iteration_frame hex env contract_id s) as Hf.
  pose proof (monitor_iteration_effect hex env contract_id s) as [_ Heff].
  unfold wp in Hf. cbv zeta.
  destruct (monitor_iteration hex env contract_id s) as [o s']. cbn [fst snd] in *.
  destruct Hf as (_ & _ & Hdb & _).
  assert (Hlpb : forall k, k <> contract_id ->
            last_processed_block s' !! k = last_processed_block s !! k).
  { intros k Hk.
    destruct Heff as (evs & _ & [[Hl _] | (c & url & cur & _ & _ & _ & [Hl | Hl] & _)]);
      rewrite Hl; try reflexivity.
    apply lookup_insert_ne. congruence. }
  destruct Hdb as [Hdb | (c & ts & Hc & _ & _ & Hdb)]; rewrite Hdb.
  - split_and!; auto. exists []. rewrite app_nil_r. auto.
  - split_and!.
    + reflexivity.
    + eexists. split; [reflexivity|]. cbn. apply alerts_of_contract.
    + intros k Hk. split; [|auto].
      rewrite apply_staged_contracts. destruct (decide (contract_id = k)); congruence.
    + right. exists c. split; [assumption|].
      rewrite apply_staged_contracts. destruct (decide (contract_id = contract_id)); congruence.
Qed.

(** X9: the loop sleeps exactly once in an iteration that ends normally,
    either the fixed 60 seconds of the critical-error path or the time of
    the contract's monitoring frequency, and not at all in an iteration that
    ends by [break] or [continue]; [continue] happens only when the
    contract row is found and the endpoint of its network reports empty code
    at its normalised address. *)
Theorem one_sleep_per_completed_iteration
    (hex : list Byte.byte -> string) (env : Env) (contract_id : Z) (s : State) :
  exists o s' evs,
    monitor_iteration hex env contract_id s = (o, s') /\
    trace s' = trace s ++ evs /\
    (o = Ret tt ->
     List.filter is_sleep evs = [EvSleep 60] \/
     exists c, contracts (db s) !! contract_id = Some c /\
       List.filter is_sleep evs = [EvSleep (get_sleep_time (monitoring_frequency c))]) /\
    (o <> Ret tt -> List.filter is_sleep evs = []) /\
    (o = Cont ->
     exists c url addr code,
       contracts (db s) !! contract_id = Some c /\
       providers env !! network c = Some url /\
       to_checksum_address env (address c) = Ok addr /\
       get_code (connect env url) addr = Ok code /\ (len code =? 0) = true).
Proof.
  pose proof (monitor_iteration_frame hex env contract_id s) as Hf. unfold wp in Hf.
  destruct (monitor_iteration hex env contract_id s) as [o s']. cbn [fst snd] in *.
  destruct Hf as (_ & _ & _ & _ & Hcont & evs & Htr & Hsleep).
  exists o, s', evs. split_and!; try assumption; try reflexivity.
  - intros ->. exact Hsleep.
  - intros Hne. destruct o as [[]|e| |]; [congruence|assumption..].
Qed.

(** ** The end of the loop *)

Section LoopEnd.

Variable hex : list Byte.byte -> string.
Variable contract_id : Z.

Lemma row_stays env s :
  is_Some (contracts (db s) !! contract_id) ->
  exists o s',
    monitor_iteration hex env contract_id s = (o, s') /\
    (o = Ret tt \/ o = Cont) /\
    is_Some (contracts (db s') !! contract_id).
Proof.
  intros Hrow.
  pose proof (monitor_iteration_frame hex env contract_id s) as Hf.
  pose proof (monitor_iteration_effect hex env contract_id s) as [Hexc _].
  unfold wp in Hf.
  destruct (monitor_iteration hex env contract_id s) as [o s']. cbn [fst snd] in *.
  destruct Hf as (_ & _ & Hdb & Hbrk & _).
  exists o, s'. split; [reflexivity|]. split.
  - destruct o as [[]|e| |]; auto.
    + destruct (Hexc e eq_refl).
    + rewrite (Hbrk eq_refl) in Hrow. destruct Hrow as [? [=]].
  - destruct Hdb as [-> | (c & ts & _ & _ & _ & ->)]; [assumption|].
    rewrite apply_staged_contracts. destruct (decide (contract_id = contract_id)); eauto.
Qed.

Lemma while_true_row_present envs : forall s,
  is_Some (contracts (db s) !! contract_id) ->
  exists s',
    while_true hex envs contract_id s = (Ret false, s') /\
    is_Some (contracts (db s') !! contract_id).
Proof.
  induction envs as [|env rest IH]; intros s Hrow; [eauto|].
  cbn [while_true].
  destruct (row_stays env s Hrow) as (o & s1 & E & Ho & Hrow1).
  rewrite E. destruct Ho as [-> | ->]; apply IH; assumption.
Qed.

End LoopEnd.

(** X10: the loop ends only because the contract row is gone.  While the
    row exists no failure of any collaborator ends it: every supplied
    iteration is run.  When the row is absent and the database answers,
    [monitor_contract] logs its start line and the warning and stops at
    once, without sleeping and without a further iteration. *)
Theorem loop_ends_only_when_row_is_absent
    (hex : list Byte.byte -> string) (contract_id : Z) (s : State) :
  (is_Some (contracts (db s) !! contract_id) ->
   forall envs, exists s',
     while_true hex envs contract_id s = (Ret false, s') /\
     is_Some (contracts (db s') !! contract_id)) /\
  (contracts (db s) !! contract_id = None ->
   forall env rest, db_connect env = Ok tt ->
   exists s',
     monitor_contract hex (env :: rest) contract_id s = (Ret true, s') /\
     db s' = db s /\
     trace s' = trace s ++
       [EvLog Info "Starting monitoring service for contract ID: {}" [VInt contract_id];
        EvLog Warning "Contract {} not found in database, stopping monitor"
          [VInt contract_id]]).
Proof.
  split.
  - intros Hrow envs. apply while_true_row_present. assumption.
  - intros Hnone env rest Hdb.
    assert (Hit : forall s0, contracts (db s0) !! contract_id = None ->
      monitor_iteration hex env contract_id s0 =
        (Brk, set_session empty_session
                (add_event (EvLog Warning "Contract {} not found in database, stopping monitor"
                              [VInt contract_id]) (set_session empty_session s0)))).
    { intros s0 H0.
      cut (wp (monitor_iteration hex env contract_id) s0 (fun o s' => o = Brk /\
             s' = set_session empty_session
                (add_event (EvLog Warning "Contract {} not found in database, stopping monitor"
                              [VInt contract_id]) (set_session empty_session s0)))).
      { intros H. apply wp_run in H. destruct H as (s' & E & ->). exact E. }
      unfold monitor_iteration. repeat wp_basic. split; reflexivity. }
    unfold monitor_contract, log, emit. rewrite bind_modify. cbn [while_true].
    rewrite Hit by exact Hnone.
    eexists. split; [reflexivity|]. split; [reflexivity|].
    cbn. rewrite <- app_assoc. reflexivity.
Qed.

(** ** Failures inside an iteration *)

(** X11: when an iteration fails before the window is scanned, because the
    database cannot be reached, the network of the row is unknown or has no
    endpoint, the address cannot be normalised or the height cannot be read,
    the outer handler logs the critical error, the only error line, and
    the loop backs off for 60 seconds whatever the monitoring frequency.
    Nothing else happens: no query, no write, no mail, and database and
    cursor are as before. *)
Theorem failure_before_scan_backs_off_one_minute
    (hex : list Byte.byte -> string) (env : Env) (contract_id : Z) (s : State) (e : exn) :
  fails_before_scan env s contract_id e ->
  exists s',
    monitor_iteration hex env contract_id s = (Ret tt, s') /\
    db s' = db s /\
    last_processed_block s' = last_processed_block s /\
    exists evs, trace s' = trace s ++ evs /\
      List.filter is_error_log evs =
        [EvLog Error "Critical error in monitoring loop: {}" [VStr (exn_str e)]] /\
      List.filter is_effect evs = [EvSleep 60].
Proof.
  intros [Hdb | (Hdb & c & Hc & [(Hurl & ->) | [(url & Hurl & Ht & ->) |
            (url & Hurl & Ht & [Haddr | (addr & Haddr & Hcur)])]])].
  all: apply wp_run; unfold monitor_iteration; repeat wp_basic.
  all: state_simpl; split_and!; try reflexivity.
  all: eexists; (split; [rewrite <- ?app_assoc; reflexivity|]).
  all: split; reflexivity.
Qed.

Lemma failure_before_scan_backs_off_one_minute_witness :
  exists s',
    monitor_iteration bytes_hex (Sample.environment (Sample.w_idle 1000) (Ok tt)) 1
      (init More.db_unknown_network) = (Ret tt, s') /\
    db s' = More.db_unknown_network /\
    last_processed_block s' = ∅.
Proof.
  destruct (failure_before_scan_backs_off_one_minute bytes_hex
              (Sample.environment (Sample.w_idle 1000) (Ok tt)) 1
              (init More.db_unknown_network)
              (Exn ValueError "Unsupported network: solana"))
    as (s' & E & Hdb & Hl & _).
  - right. split; [reflexivity|]. exists More.c_unknown_network.
    split; [reflexivity|]. left. split; vm_compute; reflexivity.
  - exists s'. auto.
Defined.

(** X12: when the scan of a window fails before anything is analysed,
    because the code, the balance or its rendering cannot be had or a log
    query fails with an error other than [BlockNotFound], the inner handler
    logs the error, the only error line, the cursor stays where it was, so
    that the next iteration starts from the same block, nothing is written
    or mailed, and the loop sleeps for the time of the contract's
    monitoring frequency. *)
Theorem failed_scan_keeps_cursor
    (hex : list Byte.byte -> string) (env : Env) (contract_id : Z) (s : State)
    (c : Contract) (url addr : string) (cur : Z) (e : exn) :
  reaches_scan env s contract_id c url addr cur ->
  scan_fails (connect env url) addr (window_start s contract_id cur) cur e ->
  exists s',
    monitor_iteration hex env contract_id s = (Ret tt, s') /\
    db s' = db s /\
    last_processed_block s' = last_processed_block s /\
    exists evs, trace s' = trace s ++ evs /\
      List.filter is_error_log evs =
        [EvLog Error "Error processing contract: {}" [VStr (exn_str e)]] /\
      List.filter is_sleep evs = [EvSleep (get_sleep_time (monitoring_frequency c))] /\
      List.filter is_write evs = [] /\
      List.filter is_email evs = [].
Proof.
  intros (Hdb & Hc & Hurl & Ht & Haddr & Hcur).
  unfold scan_fails, window_start, recipient_filter, sender_filter.
  intros [Hcode | (code & Hcode & Hlen & [Hbal | (bal & Hbal & [Heth |
            (eth & Heth & Hbnf & [Hl1 | (l & Hl1 & Hl2)])])])].
  all: apply wp_run; unfold monitor_iteration; repeat wp_basic.
  all: state_simpl; split_and!; try reflexivity.
  all: eexists; (split; [rewrite <- ?app_assoc; reflexivity|]).
  all: split_and!; reflexivity.
Qed.

Lemma failed_scan_keeps_cursor_witness :
  exists s',
    monitor_iteration bytes_hex (Sample.environment More.w_logs_fail (Ok tt)) 1
      (init Sample.db0) = (Ret tt, s') /\
    last_processed_block s' = ∅ /\
    db s' = Sample.db0.
Proof.
  destruct (failed_scan_keeps_cursor bytes_hex
              (Sample.environment More.w_logs_fail (Ok tt)) 1 (init Sample.db0)
              Sample.c0 sample_url "0xAbC" 1000 More.connection_reset)
    as (s' & E & Hdb & Hl & _).
  - sample_scan.
  - right. exists Sample.bytecode. split; [reflexivity|]. split; [reflexivity|].
    right. exists 0. split; [reflexivity|].
    right. exists "0". split; [reflexivity|]. split; [reflexivity|].
    left. reflexivity.
  - exists s'. auto.
Defined.

(** X13: when threats were found and the commit fails, the failure is
    handled by the inner handler: the iteration ends normally after the
    usual sleep, the database is as before and the cursor is not advanced,
    so the same window is scanned again, although the subscribers were
    already mailed. *)
Theorem failed_commit_is_retried
    (hex : list Byte.byte -> string) (env : Env) (contract_id : Z) (s : State)
    (c : Contract) (url addr : string) (cur : Z) (txs : list dict) (e : exn) :
  reaches_scan env s contract_id c url addr cur ->
  reaches_fetch (connect env url) addr ->
  window_yields (connect env url) addr (window_start s contract_id cur) cur txs ->
  found_threats hex (connect env url) txs <> [] ->
  db_commit env = Raise e ->
  exists s',
    monitor_iteration hex env contract_id s = (Ret tt, s') /\
    db s' = db s /\
    last_processed_block s' = last_processed_block s /\
    exists evs, trace s' = trace s ++ evs /\
      In (EvLog Error "Error processing contract: {}" [VStr (exn_str e)]) evs /\
      List.filter is_commit evs = [EvCommit false] /\
      List.filter is_sleep evs = [EvSleep (get_sleep_time (monitoring_frequency c))] /\
      (db_query_emails env = Ok tt ->
       List.filter is_email evs =
         map (email_event (warned c) (found_threats hex (connect env url) txs))
           (subscribers (db s) contract_id)).
Proof.
  intros (Hdb & Hc & Hurl & Ht & Haddr & Hcur) (code & bal & eth & Hcode & Hlen & Hbal & Heth)
    Hw Hsome Hcommit.
  unfold window_start in Hw.
  destruct (found_threats hex (connect env url) txs) as [|t ts] eqn:Hts; [congruence|].
  clear Hsome.
  assert (Htxs : list_truthy txs = true).
  { destruct txs; [discriminate Hts | reflexivity]. }
  apply wp_run. unfold monitor_iteration.
  repeat wp_step.
  all: state_simpl; split_and!; try reflexivity.
  eexists; (split; [rewrite <- ?app_assoc; reflexivity|]).
  split_and!.
  - rewrite !in_app_iff. cbn. intuition reflexivity.
  - filter_simpl. rewrite ?(filter_staging_other is_commit) by (intros []; cbn; intros; congruence).
    reflexivity.
  - filter_simpl. rewrite ?(filter_staging_other is_sleep) by (intros []; cbn; intros; congruence).
    reflexivity.
  - intros Hq. filter_simpl.
    rewrite ?(filter_staging_other is_email) by (intros []; cbn; intros; congruence).
    cbn [app]. rewrite ?app_nil_r.
    match goal with H : db_query_emails env = Ok tt -> _ |- _ => rewrite (H Hq) end.
    reflexivity.
Qed.

Lemma failed_commit_is_retried_witness :
  exists s',
    monitor_iteration bytes_hex
      (Sample.environment (Sample.w_transfer 1000) (Raise Sample.commit_error)) 1
      (init Sample.db0) = (Ret tt, s') /\
    db s' = Sample.db0 /\
    last_processed_block s' = ∅.
Proof.
  destruct (failed_commit_is_retried bytes_hex
              (Sample.environment (Sample.w_transfer 1000) (Raise Sample.commit_error)) 1
              (init Sample.db0) Sample.c0 sample_url "0xAbC" 1000 [Sample.tx1]
              Sample.commit_error)
    as (s' & E & Hdb & Hl & _).
  - sample_scan.
  - sample_fetch.
  - left. exists [Sample.tx1], []. repeat split; vm_compute; reflexivity.
  - vm_compute. discriminate.
  - reflexivity.
  - exists s'. auto.
Defined.

(** ** The dispatcher *)

Section Dispatch.

Variable env : Env.

Lemma notify_one_eq c ts e s :
  notify_one env c ts e s = (Ret tt, set_trace (trace s ++ delivery_events env c ts e) s).
Proof.
  unfold notify_one, delivery_events, email_event, try_except, log, emit. cbv zeta.
  rewrite bind_modify.
  destruct (send_alert_email env (email e) "Contract Security Alert"
              (notification_message c ts)) as [[]|ex];
    cbn [lift bind ret raise modify fst snd]; unfold modify;
    rewrite !add_event_eq, set_trace_app; reflexivity.
Qed.

Lemma notify_loop_eq c ts emails : forall s,
  for_each emails (notify_one env c ts) s =
  (Ret tt, set_trace (trace s ++ flat_map (delivery_events env c ts) emails) s).
Proof.
  induction emails as [|e emails IH]; intros s.
  - cbn. rewrite set_trace_nil. reflexivity.
  - cbn [for_each flat_map].
    rewrite (bind_eq _ _ _ _ _ (notify_one_eq c ts e s)), IH, set_trace_app.
    reflexivity.
Qed.

End Dispatch.

(** X14: the dispatcher never fails and changes nothing but the trace.
    When the subscribers can be read it calls the transport once for every
    subscriber of the contract, in the order of the table, and reports each
    delivery on its own line: a delivery that fails is logged and the
    following subscribers are still served.  When the subscribers cannot be
    read it sends nothing and logs one error. *)
Theorem send_notifications_serves_every_subscriber
    (env : Env) (contract_id : Z) (contract : Contract) (threats : list Threat) (s : State) :
  send_notifications env contract_id contract threats s =
  (Ret tt,
   set_trace
     (trace s ++
      match db_query_emails env with
      | Ok _ => flat_map (delivery_events env contract threats) (subscribers (db s) contract_id)
      | Raise ex => [EvLog Error "Error sending notifications: {}" [VStr (exn_str ex)]]
      end) s).
Proof.
  unfold send_notifications, query_alert_emails, try_except.
  rewrite bind_assoc.
  destruct (db_query_emails env) as [[]|ex]; cbn [lift].
  - rewrite bind_ret, bind_gets.
    fold (subscribers (db s) contract_id). rewrite notify_loop_eq. reflexivity.
  - reflexivity.
Qed.

(** The transport refuses the first of two subscribers of contract 1: both
    are served, and the subscriber of contract 2 is not. *)
Example refused_delivery_does_not_stop_the_rest :
  List.filter is_effect
    (trace (send_notifications More.env_refusing 1 Sample.c0 [Sample.the_threat]
              (init More.db_three_subscribers)).2) =
  [email_event Sample.c0 [Sample.the_threat]
     {| email_contract_id := 1; email := "bad@example.org" |};
   email_event Sample.c0 [Sample.the_threat]
     {| email_contract_id := 1; email := "ops@example.org" |}].
Proof. vm_compute. reflexivity. Qed.

(** ** The transactions of a window *)

Section Window.

Variable hex : list Byte.byte -> string.
Variable web3 : Web3.

Lemma threats_of_order tx : sublist (map type (threats_of hex web3 tx)) rule_order.
Proof.
  unfold threats_of.
  destruct (analyze_transaction_eq hex web3 tx (fresh [])) as [s' E].
  cbn [a_trace fresh] in E. rewrite E. cbn [fst].
  exact (analyze_body_order hex web3 tx []).
Qed.

Lemma found_threats_app l1 l2 :
  found_threats hex web3 (l1 ++ l2) = found_threats hex web3 l1 ++ found_threats hex web3 l2.
Proof. unfold found_threats. rewrite map_app, concat_app. reflexivity. Qed.

Lemma found_threats_bound txs :
  (length (found_threats hex web3 txs) <= 3 * length txs)%nat.
Proof.
  induction txs as [|tx txs IH]; [cbn; lia|].
  change (tx :: txs) with ([tx] ++ txs) at 1. rewrite found_threats_app, length_app.
  unfold found_threats at 1. cbn [map concat]. rewrite app_nil_r.
  pose proof (sublist_length _ _ (threats_of_order tx)) as H. rewrite length_map in H.
  cbn [length rule_order] in *. lia.
Qed.

Lemma found_threats_types txs :
  Forall (fun t => type t ∈ rule_order) (found_threats hex web3 txs).
Proof.
  induction txs as [|tx txs IH]; [constructor|].
  change (tx :: txs) with ([tx] ++ txs). rewrite found_threats_app.
  apply Forall_app. split; [|exact IH].
  unfold found_threats. cbn [map concat]. rewrite app_nil_r.
  pose proof (threats_of_order tx) as H.
  apply Forall_forall. intros t Ht.
  eapply elem_of_sublist; [|exact H].
  change (map type (threats_of hex web3 tx)) with (type <$> threats_of hex web3 tx).
  apply list_elem_of_fmap_2. exact Ht.
Qed.

End Window.

(** X15: the loop over the transactions of a window never fails and only
    logs.  It returns the threats of the transactions one after the other,
    in the order of the transactions, each evaluated on its own: whatever
    was collected before is kept, at most three threats are added per
    transaction, and every threat has one of the three types. *)
Theorem analyze_all_collects_in_order
    (hex : list Byte.byte -> string) (web3 : Web3) (txs : list dict)
    (total idx : Z) (acc : list Threat) (s : State) :
  exists evs,
    analyze_all hex web3 total idx txs acc s =
      (Ret (acc ++ concat (map (threats_of hex web3) txs)),
       set_trace (trace s ++ evs) s) /\
    forallb is_log evs = true /\
    (length (concat (map (threats_of hex web3) txs)) <= 3 * length txs)%nat /\
    Forall (fun t => type t ∈ rule_order) (concat (map (threats_of hex web3) txs)).
Proof.
  destruct (analyze_all_spec hex web3 txs total idx acc s) as (evs & E & Hevs).
  exists evs. split; [exact E|]. split; [exact Hevs|]. split.
  - apply found_threats_bound.
  - apply found_threats_types.
Qed.

(** X16: the entries of the two log queries are put one after the other
    and nothing is removed: when the window alerts, the new alert rows are
    those of the entries where the contract is the recipient followed by
    those of the entries of the second query, so an entry that both queries
    return is alerted twice. *)
Theorem both_queries_are_alerted
    (hex : list Byte.byte -> string) (env : Env) (contract_id : Z) (s : State)
    (c : Contract) (url addr : string) (cur : Z) (l1 l2 : list dict) :
  reaches_scan env s contract_id c url addr cur ->
  reaches_fetch (connect env url) addr ->
  get_logs (connect env url)
    (recipient_filter addr (window_start s contract_id cur) cur) = Ok l1 ->
  get_logs (connect env url)
    (sender_filter addr (window_start s contract_id cur) cur) = Ok l2 ->
  found_threats hex (connect env url) l1 ++ found_threats hex (connect env url) l2 <> [] ->
  db_commit env = Ok tt ->
  exists s',
    monitor_iteration hex env contract_id s = (Ret tt, s') /\
    alerts (db s') =
      alerts (db s) ++
      map (alert_of contract_id) (found_threats hex (connect env url) l1) ++
      map (alert_of contract_id) (found_threats hex (connect env url) l2).
Proof.
  intros Hscan Hfetch H1 H2 Hsome Hcommit.
  rewrite <- found_threats_app in Hsome.
  destruct (alerting_iteration hex env contract_id s c url addr cur (l1 ++ l2) Hscan Hfetch)
    as (s' & E & _ & _ & Hok & _).
  - left. eauto.
  - exact Hsome.
  - exists s'. split; [exact E|].
    destruct (Hok Hcommit) as (_ & Ha & _).
    rewrite Ha, found_threats_app, map_app. reflexivity.
Qed.

Lemma both_queries_are_alerted_witness :
  exists s',
    monitor_iteration bytes_hex (Sample.environment More.w_both_queries (Ok tt)) 1
      (init Sample.db0) = (Ret tt, s') /\
    alerts (db s') = [alert_of 1 Sample.the_threat; alert_of 1 Sample.the_threat].
Proof.
  destruct (both_queries_are_alerted bytes_hex
              (Sample.environment More.w_both_queries (Ok tt)) 1 (init Sample.db0)
              Sample.c0 sample_url "0xAbC" 1000 [Sample.tx1] [Sample.tx1])
    as (s' & E & Ha).
  - sample_scan.
  - sample_fetch.
  - vm_compute. reflexivity.
  - vm_compute. reflexivity.
  - vm_compute. discriminate.
  - reflexivity.
  - exists s'. split; [exact E|]. rewrite Ha. vm_compute. reflexivity.
Defined.

(** ** The registry of monitors *)

Section Registry.

Lemma start_monitoring_new contract_id s :
  monitors s !! contract_id = None ->
  start_monitoring contract_id s =
  (Ret tt,
   set_trace (trace s ++
       [EvLog Info "Starting new monitor thread for contract {}" [VInt contract_id];
        EvSpawn (monitor_thread contract_id);
        EvLog Info "Monitor thread started for contract {}" [VInt contract_id]])
     (set_monitors (<[contract_id := monitor_thread contract_id]> (monitors s)) s)).
Proof.
  intros Hm. unfold start_monitoring, log, emit. rewrite bind_gets, Hm.
  rewrite !bind_modify. unfold modify.
  destruct s. unfold set_trace, set_monitors, add_event, State_traced, set_trace. cbn.
  rewrite <- !app_assoc. reflexivity.
Qed.

Lemma start_monitoring_known contract_id s t :
  monitors s !! contract_id = Some t ->
  start_monitoring contract_id s =
  (Ret tt,
   add_event (EvLog Warning "Monitor already exists for contract {}" [VInt contract_id]) s).
Proof.
  intros Hm. unfold start_monitoring, log, emit. rewrite bind_gets, Hm. reflexivity.
Qed.

Lemma threads_started_set_trace s0 s evs :
  threads_started (set_trace (trace s ++ evs) s0) =
  (threads_started s + length (List.filter is_spawn evs))%nat.
Proof.
  unfold threads_started, set_trace. cbn [trace].
  rewrite List.filter_app, length_app. reflexivity.
Qed.

End Registry.

(** X17: whatever ids [start_monitoring] is called with, in whatever order
    and however often, the registry ends up with exactly the ids it had and
    the ids asked for, an entry that existed is never replaced, a new id
    gets the daemon thread named after it, and the number of threads
    started equals the number of entries added: one thread per contract.
    Nothing else of the state changes. *)
Theorem one_thread_per_contract (ids : list Z) (s : State) :
  exists s',
    start_all ids s = (Ret tt, s') /\
    dom (monitors s') = dom (monitors s) ∪ list_to_set ids /\
    (forall id t, monitors s !! id = Some t -> monitors s' !! id = Some t) /\
    (forall id t, monitors s' !! id = Some t ->
       monitors s !! id = Some t \/ t = monitor_thread id) /\
    (threads_started s' + size (monitors s) = threads_started s + size (monitors s'))%nat /\
    db s' = db s /\
    last_processed_block s' = last_processed_block s /\
    session s' = session s.
Proof.
  unfold start_all. revert s.
  induction ids as [|id ids IH]; intros s.
  - exists s. cbn [for_each list_to_set]. split; [reflexivity|].
    split_and!; auto. rewrite union_empty_r_L. reflexivity.
  - cbn [for_each].
    destruct (monitors s !! id) as [t|] eqn:Hm.
    + rewrite (bind_eq _ _ _ _ _ (start_monitoring_known id s t Hm)).
      destruct (IH (add_event (EvLog Warning "Monitor already exists for contract {}"
                                 [VInt id]) s))
        as (s' & E & Hdom & Hkeep & Hnew & Hcount & Hdb & Hl & Hses).
      exists s'. split; [exact E|].
      rewrite add_event_eq, threads_started_set_trace in Hcount.
      state_simpl. cbn [List.filter is_spawn length] in Hcount.
      split_and!; auto; [|lia].
      rewrite Hdom. apply elem_of_dom_2 in Hm. cbn [list_to_set].
      apply set_eq. intros k. rewrite !elem_of_union, elem_of_singleton.
      split; [tauto|]. intros [?|[->|?]]; auto.
    + rewrite (bind_eq _ _ _ _ _ (start_monitoring_new id s Hm)).
      destruct (IH (set_trace (trace s ++
          [EvLog Info "Starting new monitor thread for contract {}" [VInt id];
           EvSpawn (monitor_thread id);
           EvLog Info "Monitor thread started for contract {}" [VInt id]])
          (set_monitors (<[id := monitor_thread id]> (monitors s)) s)))
        as (s' & E & Hdom & Hkeep & Hnew & Hcount & Hdb & Hl & Hses).
      exists s'. split; [exact E|].
      rewrite threads_started_set_trace in Hcount.
      state_simpl. cbn [List.filter is_spawn length] in Hcount.
      rewrite map_size_insert_None in Hcount by exact Hm.
      split_and!; auto.
      * rewrite Hdom, dom_insert_L. cbn [list_to_set].
        apply set_eq. intros k. rewrite !elem_of_union, elem_of_singleton. tauto.
      * intros k t Hk. apply Hkeep. rewrite lookup_insert_ne; [exact Hk|]. congruence.
      * intros k t Hk. destruct (Hnew k t Hk) as [Hin | ->]; [|auto].
        destruct (decide (id = k)) as [<-|Hne].
        -- rewrite lookup_insert_eq in Hin. right. congruence.
        -- rewrite lookup_insert_ne in Hin by exact Hne. auto.
      * lia.
Qed.

(** From a fresh monitor, three calls for two contracts start two threads. *)
Example two_contracts_two_threads :
  let s' := (start_all [7; 9; 7] (init Sample.db0)).2 in
  threads_started s' = 2%nat /\ size (monitors s') = 2%nat.
Proof. vm_compute. split; reflexivity. Qed.
